(** * perontips_fliers_backend: the M-Pesa payment coordinator of server.js

    A shallow embedding of the Express handlers of the repository and the
    statements that its specification makes about them.

    The repository holds five successive versions of [server.js]:
    - [ServerA]: src/server.js, first document (lines 1-153);
    - [ServerB]: src/server.js, second document (lines 154-409);
    - [Part0A]:  src/unnamed/part_000, first document (lines 1-254);
    - [Part0B]:  src/unnamed/part_000, second document (lines 255-373); the
                 text ends after [/api/mpesa/stk], which with
                 [getAccessToken] is all that is modelled of it;
    - [Part1]:   src/unnamed/part_001.
    Every handler below takes the version as its first argument and follows
    the text of that version; a route that a version does not declare is
    answered by Express with 404.

    Modelling conventions.
    - JavaScript values are [jsval]; a property that an object does not have
      reads as [JUndefined].  Numbers are [num]: the rationals together with
      NaN and the two infinities, of which the IEEE doubles are a subset; the
      code only compares numbers, and comparison of doubles is comparison of
      the values they denote.
    - Strings are [string]; a character is one UTF-16 code unit below 256.
    - [Date.now()], [getTimestamp()] and the two answers of the gateway are
      inputs of the handler that reads them.
    - An exception is a value of [Exc]; [try]/[catch] is a match on it. *)

From Stdlib Require Import ZArith QArith Qround List String Ascii Bool Lia Lqa.
From Stdlib Require Import DecimalString.
Import ListNotations.
Set Warnings "-register-all".
Local Open Scope string_scope.
Local Open Scope Z_scope.

(** ** JavaScript values *)

Inductive num : Type :=
| NaN
| NegInf
| Fin (q : Q)
| PosInf.

(** [a > b], [a <= b] and [a === b] on numbers; every comparison with NaN
    is false. *)
Definition num_gtb (a b : num) : bool :=
  match a, b with
  | NaN, _ | _, NaN => false
  | PosInf, PosInf => false
  | PosInf, _ => true
  | _, PosInf => false
  | NegInf, _ => false
  | Fin _, NegInf => true
  | Fin x, Fin y => negb (Qle_bool x y)
  end.

Definition num_leb (a b : num) : bool :=
  match a, b with
  | NaN, _ | _, NaN => false
  | _, PosInf => true
  | PosInf, _ => false
  | NegInf, _ => true
  | Fin _, NegInf => false
  | Fin x, Fin y => Qle_bool x y
  end.

Definition num_eqb (a b : num) : bool :=
  match a, b with
  | PosInf, PosInf => true
  | NegInf, NegInf => true
  | Fin x, Fin y => Qeq_bool x y
  | _, _ => false
  end.

Definition isNaN (a : num) : bool :=
  match a with NaN => true | _ => false end.

Definition of_Z (z : Z) : num := Fin (inject_Z z).

Inductive jsval : Type :=
| JUndefined
| JNull
| JBool (b : bool)
| JNum (n : num)
| JStr (s : string)
| JArr (items : list jsval)
| JObj (props : list (string * jsval)).

(** [a === b].  Two objects or arrays are equal only when they are the same
    reference; every object compared below comes from a different request
    body or gateway response, so the comparison is false. *)
Definition strict_eq (a b : jsval) : bool :=
  match a, b with
  | JUndefined, JUndefined => true
  | JNull, JNull => true
  | JBool x, JBool y => Bool.eqb x y
  | JNum x, JNum y => num_eqb x y
  | JStr x, JStr y => String.eqb x y
  | _, _ => false
  end.

(** ToBoolean. *)
Definition truthy (v : jsval) : bool :=
  match v with
  | JUndefined | JNull => false
  | JBool b => b
  | JNum n => negb (isNaN n || num_eqb n (of_Z 0))
  | JStr s => negb (String.eqb s "")
  | JArr _ | JObj _ => true
  end.

(** [a || b]. *)
Definition js_or (a b : jsval) : jsval := if truthy a then a else b.

Fixpoint assoc (k : string) (ps : list (string * jsval)) : option jsval :=
  match ps with
  | [] => None
  | (k', v) :: rest => if String.eqb k k' then Some v else assoc k rest
  end.

(** [o.k] for an [o] that is neither [undefined] nor [null].  [JObj] lists
    the properties of a parsed object, each name once.  None of the property
    names the handlers read is defined on a primitive or an array. *)
Definition prop (k : string) (o : jsval) : jsval :=
  match o with
  | JObj ps => match assoc k ps with Some v => v | None => JUndefined end
  | _ => JUndefined
  end.

(** ** Exceptions *)

(** A thrown error: axios attaches [response] (status and data) when the
    gateway answered with a failure status; every error has a [name] and a
    [message]. *)
Record JsError : Type := mkError {
  name : string;
  response : option (Z * jsval);
  message : string
}.

Definition TypeError : JsError :=
  mkError "TypeError" None "Cannot read properties of undefined".

(** [new Error(msg)]. *)
Definition Error (msg : string) : JsError := mkError "Error" None msg.

Inductive Exc (A : Type) : Type :=
| Ret (a : A)
| Throw (e : JsError).
Arguments Ret {A} a.
Arguments Throw {A} e.

Definition bind {A B} (m : Exc A) (k : A -> Exc B) : Exc B :=
  match m with
  | Ret a => k a
  | Throw e => Throw e
  end.

Notation "x <- m ;; k" := (bind m (fun x => k))
  (at level 61, m at next level, right associativity).

(** [o.k]: a TypeError when [o] is [undefined] or [null]. *)
Definition get (o : jsval) (k : string) : Exc jsval :=
  match o with
  | JUndefined | JNull => Throw TypeError
  | _ => Ret (prop k o)
  end.

(** [o?.k]. *)
Definition get_opt (o : jsval) (k : string) : jsval :=
  match o with
  | JUndefined | JNull => JUndefined
  | _ => prop k o
  end.

(** [arr.find(i => i.Name === name)]: a TypeError when [arr] has no [find]
    (it is not an array) or when an element reached before the first match
    is [undefined] or [null]. *)
Fixpoint find_named (name : string) (l : list jsval) : Exc jsval :=
  match l with
  | [] => Ret JUndefined
  | i :: rest =>
      n <- get i "Name" ;;
      if strict_eq n (JStr name) then Ret i else find_named name rest
  end.

Definition find_item (name : string) (arr : jsval) : Exc jsval :=
  match arr with
  | JArr l => find_named name l
  | _ => Throw TypeError
  end.

(** ** Versions, configuration and the process-wide state *)

Inductive Version : Type := ServerA | ServerB | Part0A | Part0B | Part1.

(** [process.env]: a variable is a string or is not set. *)
Record Config : Type := mkConfig {
  DARAJA_CONSUMER_KEY : option string;
  DARAJA_CONSUMER_SECRET : option string
}.

Definition env_set (x : option string) : bool :=
  match x with
  | Some s => negb (String.eqb s "")
  | None => false
  end.

(** One element of [logs].  A property the object literal does not list is
    [JUndefined]. *)
Record LogEntry : Type := mkLog {
  phone : jsval;
  amount : jsval;
  event : jsval;
  template : jsval;
  status : jsval;
  timestamp : jsval;
  checkoutId : jsval;
  details : jsval;
  mpesaReceipt : jsval;
  resultDesc : jsval;
  expiry : jsval;
  paidAmount : jsval
}.

(** [let accessTokenCache = null; let tokenExpiryTime = null;] *)
Record TokenCache : Type := mkCache {
  accessTokenCache : jsval;
  tokenExpiryTime : option Z
}.

Definition empty_cache : TokenCache := mkCache JNull None.

Record Server : Type := mkServer {
  logs : list LogEntry;
  cache : TokenCache
}.

Definition initial : Server := mkServer [] empty_cache.

Record Response : Type := mkResponse {
  code : Z;
  body : jsval
}.

(** [res.json(b)] and [res.status(c).json(b)]. *)
Definition json (b : jsval) : Response := mkResponse 200 b.
Definition status_json (c : Z) (b : jsval) : Response := mkResponse c b.

(** Express answers a route that the version does not declare with 404,
    and an exception that leaves a synchronous handler with 500. *)
Definition no_route : Response := mkResponse 404 JUndefined.
Definition uncaught : Response := mkResponse 500 JUndefined.

(** ** The gateway *)

(** The answer to the credential exchange: axios resolves with
    [response.data], or rejects. *)
Inductive OauthAnswer : Type :=
| OauthOk (data : jsval)
| OauthFail (e : JsError).

(** The answer to the STK push. *)
Inductive StkAnswer : Type :=
| StkOk (data : jsval)
| StkFail (e : JsError).

(** What a handler reads from outside the process: [Date.now()] when the
    cache is checked and again when the credential exchange has answered,
    the two results of [getTimestamp()], and the gateway's answers. *)
Record World : Type := mkWorld {
  now : Z;
  now_after : Z;
  stamp : string;
  stamp_log : string;
  oauth : OauthAnswer;
  stk : StkAnswer
}.

(** ** Token cache: [getAccessToken] *)

(** The duration added to [Date.now()] on refresh, in milliseconds:
    [3600000], [3500000], and [(60 * 60 * 1000) - (5 * 1000)]. *)
Definition token_lifetime (v : Version) : Z :=
  match v with
  | ServerA | ServerB | Part0B => 3600000
  | Part0A => 3500000
  | Part1 => (60 * 60 * 1000) - (5 * 1000)
  end.

(** [tokenExpiryTime > Date.now()]; [null] converts to 0. *)
Definition expiry_after (e : option Z) (t : Z) : bool :=
  match e with
  | Some x => t <? x
  | None => t <? 0
  end.

(** Truthiness of [tokenExpiryTime]. *)
Definition expiry_truthy (e : option Z) : bool :=
  match e with
  | Some x => negb (x =? 0)
  | None => false
  end.

Definition cache_fresh (v : Version) (t : Z) (c : TokenCache) : bool :=
  match v with
  | Part1 =>
      truthy (accessTokenCache c) && expiry_truthy (tokenExpiryTime c)
      && expiry_after (tokenExpiryTime c) t
  | _ => truthy (accessTokenCache c) && expiry_after (tokenExpiryTime c) t
  end.

(** What [getAccessToken] does when the credentials are not configured;
    ServerA, ServerB and Part0B do not look. *)
Definition credentials_check (v : Version) (cfg : Config) : option (Exc jsval) :=
  let unset := negb (env_set (DARAJA_CONSUMER_KEY cfg))
               || negb (env_set (DARAJA_CONSUMER_SECRET cfg)) in
  match v with
  | Part0A => if unset then Some (Ret JNull) else None
  | Part1 =>
      if unset
      then Some (Throw (Error "Daraja consumer key/secret not configured"))
      else None
  | _ => None
  end.

(** The [catch] of the exchange: Part0A returns [null], the others throw. *)
Definition exchange_failed (v : Version) : Exc jsval :=
  match v with
  | Part0A => Ret JNull
  | _ => Throw (Error "Unable to fetch access token")
  end.

(** The result of one call: what the caller gets, the cache afterwards, and
    the number of credential exchanges the call made. *)
Record Acquired : Type := mkAcquired {
  token : Exc jsval;
  cache_after : TokenCache;
  exchanges : nat
}.

Definition getAccessToken (v : Version) (cfg : Config) (w : World)
    (c : TokenCache) : Acquired :=
  if cache_fresh v (now w) c then mkAcquired (Ret (accessTokenCache c)) c 0
  else
    match credentials_check v cfg with
    | Some r => mkAcquired r c 0
    | None =>
        match oauth w with
        | OauthOk data =>
            match get data "access_token" with
            | Ret tok =>
                mkAcquired (Ret tok)
                  (mkCache tok (Some (now_after w + token_lifetime v))) 1
            | Throw _ => mkAcquired (exchange_failed v) c 1
            end
        | OauthFail _ => mkAcquired (exchange_failed v) c 1
        end
    end.

(** ** Phone normaliser: [normalizePhone] (part_001) *)

(** [\s] on code units below 256. *)
Definition is_space (c : ascii) : bool :=
  let n := nat_of_ascii c in
  (((9 <=? n) && (n <=? 13)) || (n =? 32) || (n =? 160))%nat.

Definition is_stripped (c : ascii) : bool :=
  is_space c || Ascii.eqb c "+" || Ascii.eqb c "-".

(** [\d]. *)
Definition is_digit (c : ascii) : bool :=
  let n := nat_of_ascii c in ((48 <=? n) && (n <=? 57))%nat.

(** [phone.replace(/\s|\+|-/g, '')]. *)
Fixpoint strip (s : string) : string :=
  match s with
  | EmptyString => EmptyString
  | String c r => if is_stripped c then strip r else String c (strip r)
  end.

(** [\d{n}$]: the rest of the string is exactly [n] digits. *)
Fixpoint digits (n : nat) (s : string) : bool :=
  match n, s with
  | O, EmptyString => true
  | S k, String c r => is_digit c && digits k r
  | _, _ => false
  end.

(** [/^07\d{8}$/], [/^7\d{8}$/] and [/^2547\d{8}$/]. *)
Definition re_national (s : string) : bool :=
  match s with
  | String "0" (String "7" r) => digits 8 r
  | _ => false
  end.

Definition re_bare (s : string) : bool :=
  match s with
  | String "7" r => digits 8 r
  | _ => false
  end.

Definition re_international (s : string) : bool :=
  match s with
  | String "2" (String "5" (String "4" (String "7" r))) => digits 8 r
  | _ => false
  end.

Definition normalizePhone (p : jsval) : jsval :=
  match p with
  | JStr s =>
      if String.eqb s "" then JNull
      else
        let cleaned := strip s in
        if re_national cleaned then JStr cleaned
        else if re_bare cleaned then JStr ("0" ++ cleaned)
        else if re_international cleaned then JStr cleaned
        else if re_international cleaned then JStr cleaned
        else JStr cleaned
  | _ => JNull
  end.

(** ** The Ledger: [logs] *)

(** [logs.findIndex(p)]; [None] is [-1]. *)
Fixpoint findIndex {A : Type} (p : A -> bool) (l : list A) : option nat :=
  match l with
  | [] => None
  | x :: rest =>
      if p x then Some O
      else match findIndex p rest with
           | Some i => Some (S i)
           | None => None
           end
  end.

(** [logs.find(p)]. *)
Fixpoint find_first {A : Type} (p : A -> bool) (l : list A) : option A :=
  match l with
  | [] => None
  | x :: rest => if p x then Some x else find_first p rest
  end.

(** The assignments [logs[i].f = ...]: the element at [i] is replaced by
    [f] of it. *)
Fixpoint update_at {A : Type} (i : nat) (f : A -> A) (l : list A) : list A :=
  match l, i with
  | [], _ => []
  | x :: rest, O => f x :: rest
  | x :: rest, S k => x :: update_at k f rest
  end.

Definition has_id (cid : jsval) (e : LogEntry) : bool :=
  strict_eq (checkoutId e) cid.

Definition has_phone (p : jsval) (e : LogEntry) : bool :=
  strict_eq (phone e) p.

(** The object that [res.json(log)] serialises. *)
Definition entry_json (e : LogEntry) : jsval :=
  JObj [("phone", phone e); ("amount", amount e); ("event", event e);
        ("template", template e); ("status", status e);
        ("timestamp", timestamp e); ("checkoutId", checkoutId e);
        ("details", details e); ("mpesaReceipt", mpesaReceipt e);
        ("resultDesc", resultDesc e); ("expiry", expiry e);
        ("paidAmount", paidAmount e)].

Definition err (msg : string) : jsval := JObj [("error", JStr msg)].

(** [try { ... } catch (e) { ... }]. *)
Definition catch {A : Type} (m : Exc A) (h : JsError -> A) : A :=
  match m with
  | Ret a => a
  | Throw e => h e
  end.

Definition with_logs (s : Server) (l : list LogEntry) : Server :=
  mkServer l (cache s).

Definition with_cache (s : Server) (c : TokenCache) : Server :=
  mkServer (logs s) c.

Definition push (e : LogEntry) (s : Server) : Server :=
  with_logs s (logs s ++ [e]).

(** ** Payment initiation: [POST /pay] and [POST /api/mpesa/stk] *)

Section Handlers.

(** [Number(v)] and [String(v)] where ECMAScript parses or prints: the
    conversion of a string, an array or an object to a number, and of
    anything but a string to a string. *)
Variable parseNumber : jsval -> num.
Variable printString : jsval -> string.

Definition ToNumber (v : jsval) : num :=
  match v with
  | JUndefined => NaN
  | JNull => of_Z 0
  | JBool true => of_Z 1
  | JBool false => of_Z 0
  | JNum n => n
  | _ => parseNumber v
  end.

Definition ToString (v : jsval) : string :=
  match v with
  | JStr s => s
  | _ => printString v
  end.

Definition MAX_AMOUNT : Z := 30.
Definition FIXED_AMOUNT : Z := 20.

(** [axios.post(...)]: resolves with the response or throws.  The request
    that the handler assembles (password, timestamp, amount, phone, callback
    address) reaches the gateway only; what the handler does next depends
    on the gateway's answer, which is an input. *)
Definition stkpush (w : World) : Exc jsval :=
  match stk w with
  | StkOk data => Ret data
  | StkFail e => Throw e
  end.

(** [error.response?.data || error.message]. *)
Definition data_or_message (e : JsError) : jsval :=
  match response e with
  | Some (_, d) => js_or d (JStr (message e))
  | None => JStr (message e)
  end.

(** The [catch] of [/pay]. *)
Definition pay_failed (v : Version) (e : JsError) : Response :=
  match v with
  | Part1 =>
      let st := match response e with
                | Some (c, _) => if c =? 0 then 500 else c
                | None => 500
                end in
      let data := match response e with
                  | Some (_, d) => js_or d (JObj [("message", JStr (message e))])
                  | None => JObj [("message", JStr (message e))]
                  end in
      status_json st
        (JObj [("error", JStr "Payment initiation failed"); ("details", data)])
  | _ =>
      status_json 500
        (JObj [("error", JStr "Payment initiation failed");
               ("message", JStr (message e))])
  end.

(** The [catch] of [/api/mpesa/stk]; Part0A ends its chain with
    [String(err)], which is the error's name when the message is empty. *)
Definition stk_failed (v : Version) (e : JsError) : Response :=
  let msg := match v with
             | Part0A => js_or (data_or_message e) (JStr (name e))
             | _ => data_or_message e
             end in
  status_json 500
    (JObj [("error", JStr "Payment initiation failed"); ("message", msg)]).

(** The Pending record that an initiation appends. *)
Definition pending (ph am ev tp : jsval) (ts : string) (cid data : jsval)
    : LogEntry :=
  mkLog ph am ev tp (JStr "Pending") (JStr ts) cid data
        JUndefined JUndefined JUndefined JUndefined.

(** The amount checks of [/pay] in part_001 (lines 133-146): the response
    that rejects the request, or [Number(amount)]. *)
Definition check_amount (am : jsval) : Response + num :=
  if strict_eq am JUndefined || strict_eq am JNull
  then inl (status_json 400 (err "Amount is required"))
  else
    let numericAmount := ToNumber am in
    if isNaN numericAmount || num_leb numericAmount (of_Z 0)
    then inl (status_json 400 (err "Invalid amount"))
    else if num_gtb numericAmount (of_Z MAX_AMOUNT)
    then inl (status_json 400 (err "Amount exceeds maximum allowed (KES 30)"))
    else inr numericAmount.

(** What [/pay] does once the request is validated: token, STK push, and
    the record. *)
Definition submit_pay (v : Version) (cfg : Config) (w : World)
    (ph am : jsval) (s : Server) : Response * Server :=
  let a := getAccessToken v cfg w (cache s) in
  let s1 := with_cache s (cache_after a) in
  catch
    (_ <- token a ;;
     data <- stkpush w ;;
     cid <- get data "CheckoutRequestID" ;;
     let s2 := push (pending ph am JUndefined JUndefined (stamp w) cid data) s1 in
     Ret (match v with
          | Part1 =>
              json (JObj [("message", JStr "STK push initiated");
                          ("checkoutId", cid); ("raw", data)])
          | _ => json data
          end, s2))
    (fun e => (pay_failed v e, s1)).

Definition pay (v : Version) (cfg : Config) (w : World) (reqbody : jsval)
    (s : Server) : Response * Server :=
  match v with
  | ServerA | ServerB =>
      match get reqbody "phone" with
      | Throw e => (pay_failed v e, s)
      | Ret ph => submit_pay v cfg w ph (prop "amount" reqbody) s
      end
  | Part1 =>
      match get reqbody "phone" with
      | Throw e => (pay_failed v e, s)
      | Ret rawPhone =>
          match check_amount (prop "amount" reqbody) with
          | inl r => (r, s)
          | inr numericAmount =>
              let ph := normalizePhone (JStr (ToString (js_or rawPhone (JStr "")))) in
              if negb (truthy ph)
              then (status_json 400 (err "Invalid phone number"), s)
              else submit_pay v cfg w ph (JNum numericAmount) s
          end
      end
  | _ => (no_route, s)
  end.

Definition stk_route (v : Version) (cfg : Config) (w : World) (reqbody : jsval)
    (s : Server) : Response * Server :=
  match v with
  | ServerB | Part0A | Part0B =>
      let b := js_or reqbody (JObj []) in
      let ph := prop "phone" b in
      let ev := prop "event" b in
      let tp := prop "template" b in
      if negb (truthy ph) then (status_json 400 (err "phone is required"), s)
      else
        let a := getAccessToken v cfg w (cache s) in
        let s1 := with_cache s (cache_after a) in
        catch
          (tok <- token a ;;
           match v, truthy tok with
           | ServerB, false =>
               Ret (status_json 500 (err "Daraja access token unavailable"), s1)
           | Part0A, false =>
               Ret (status_json 500
                      (err "Daraja access token unavailable. Check server environment and network."),
                    s1)
           | _, _ =>
               data <- stkpush w ;;
               cid <- match v with
                      | ServerB => get data "CheckoutRequestID"
                      | Part0A => Ret (js_or (get_opt data "CheckoutRequestID") JNull)
                      | _ => c <- get data "CheckoutRequestID" ;; Ret (js_or c JNull)
                      end ;;
               let ts := match v with Part0A => stamp_log w | _ => stamp w end in
               let e := pending ph (JNum (of_Z FIXED_AMOUNT)) (js_or ev JNull)
                          (js_or tp JNull) ts cid data in
               Ret (json (JObj [("checkoutId", cid); ("data", data)]), push e s1)
           end)
          (fun e => (stk_failed v e, s1))
  | _ => (no_route, s)
  end.

(** ** Status queries: [GET /api/mpesa/status], [GET /status], [GET /logs] *)

(** [logs.find(l => l.checkoutId === checkoutId)]. *)
Definition findByCheckoutId (cid : jsval) (l : list LogEntry) : option LogEntry :=
  find_first (has_id cid) l.

Definition status_by_id (v : Version) (q : jsval) (s : Server) : Response :=
  match v with
  | ServerB | Part0A =>
      if negb (truthy q) then status_json 400 (err "checkoutId is required")
      else
        match findByCheckoutId q (logs s) with
        | None => status_json 404 (err "Transaction not found")
        | Some found =>
            json (JObj [("status", js_or (status found) (JStr "Pending"));
                        ("phone", phone found);
                        ("amount", amount found);
                        ("event", event found);
                        ("template", template found);
                        ("mpesaReceipt", js_or (mpesaReceipt found) JNull);
                        ("resultDesc", js_or (resultDesc found) JNull);
                        ("expiry", js_or (expiry found) JNull);
                        ("checkoutId", checkoutId found)])
        end
  | _ => no_route
  end.

(** The phone that [/status] and [/logs] filter by: part_001 normalises the
    query parameter, the other versions take it as it is. *)
Definition query_phone (v : Version) (q : jsval) : jsval :=
  match v with
  | Part1 => normalizePhone (JStr (ToString q))
  | _ => q
  end.

(** [logs.filter(log => log.phone === phone)]. *)
Definition userLogs (v : Version) (q : jsval) (l : list LogEntry) : list LogEntry :=
  filter (has_phone (query_phone v q)) l.

(** [userLogs[userLogs.length - 1]]. *)
Definition lastLog (v : Version) (q : jsval) (l : list LogEntry) : option LogEntry :=
  nth_error (userLogs v q l) (List.length (userLogs v q l) - 1).

Definition status_by_phone (v : Version) (q : jsval) (s : Server) : Response :=
  match v with
  | Part0B => no_route
  | _ =>
      if negb (truthy q) then status_json 400 (err "Phone is required")
      else if match v with
              | Part1 => negb (truthy (query_phone v q))
              | _ => false
              end
      then status_json 400 (err "Invalid phone format")
      else
        match lastLog v q (logs s) with
        | None =>
            status_json 404
              (err match v with
                   | Part1 => "No transactions found for this phone"
                   | _ => "No transactions found"
                   end)
        | Some e => json (entry_json e)
        end
  end.

(** The records that [/logs] answers with. *)
Definition listed (v : Version) (q : jsval) (l : list LogEntry) : list LogEntry :=
  if truthy q then userLogs v q l else l.

Definition logs_route (v : Version) (q : jsval) (s : Server) : Response :=
  match v with
  | Part0B => no_route
  | _ => json (JArr (map entry_json (listed v q (logs s))))
  end.

(** ** Reconciliation: [POST /callback] *)

Definition ack : jsval :=
  JObj [("ResultCode", JNum (of_Z 0)); ("ResultDesc", JStr "Received")].

(** [callback.ResultCode === 0]. *)
Definition succeeded (cb : jsval) : bool :=
  strict_eq (prop "ResultCode" cb) (JNum (of_Z 0)).

(** [(callback.ResultCode === 0) ? 'Success' : 'Failed']. *)
Definition outcome (cb : jsval) : jsval :=
  if succeeded cb then JStr "Success" else JStr "Failed".

(** The value assigned to [mpesaReceipt]: [receiptItem?.Value] in ServerA,
    [receiptItem?.Value || null] in the later versions. *)
Definition receipt_of (v : Version) (receiptItem : jsval) : jsval :=
  match v with
  | ServerA => get_opt receiptItem "Value"
  | _ => js_or (get_opt receiptItem "Value") JNull
  end.

(** The assignments to [logs[logIndex]] when the identifier is found. *)
Definition reconcile (v : Version) (w : World) (cb receiptItem paid : jsval)
    (e : LogEntry) : LogEntry :=
  mkLog (phone e) (amount e) (event e) (template e)
    (outcome cb)
    (timestamp e) (checkoutId e) (details e)
    (receipt_of v receiptItem)
    (match v with
     | ServerA | Part1 => prop "ResultDesc" cb
     | _ => js_or (prop "ResultDesc" cb) JNull
     end)
    (match v with
     | ServerB | Part0A =>
         if succeeded cb then JNum (of_Z (now w + 1000 * 60 * 60 * 12))
         else expiry e
     | _ => expiry e
     end)
    (match v with
     | Part1 => if truthy paid then paid else paidAmount e
     | _ => paidAmount e
     end).

(** The record pushed when no record has the identifier. *)
Definition orphan (v : Version) (w : World) (cb receiptItem paid : jsval)
    : LogEntry :=
  mkLog (JStr "unknown")
    (match v with Part1 => js_or paid JNull | _ => JNull end)
    JUndefined JUndefined
    (match v with
     | Part0A => js_or (prop "ResultDesc" cb) (outcome cb)
     | Part1 => js_or (prop "ResultDesc" cb) (JStr "Unknown")
     | _ => prop "ResultDesc" cb
     end)
    (JStr (stamp w))
    (prop "CheckoutRequestID" cb)
    cb
    (match v with Part1 => receipt_of v receiptItem | _ => JUndefined end)
    JUndefined JUndefined JUndefined.

(** The update of [logs] by a callback whose [stkCallback] is [cb]. *)
Definition apply_callback (v : Version) (w : World) (cb receiptItem paid : jsval)
    (l : list LogEntry) : list LogEntry :=
  match findIndex (has_id (prop "CheckoutRequestID" cb)) l with
  | Some logIndex => update_at logIndex (reconcile v w cb receiptItem paid) l
  | None => l ++ [orphan v w cb receiptItem paid]
  end.

(** [callback.CallbackMetadata?.Item || []]. *)
Definition callback_items (cb : jsval) : jsval :=
  js_or (get_opt (prop "CallbackMetadata" cb) "Item") (JArr []).

(** The body of the handler; part_000 reads [req.body?.Body], the others
    [req.body.Body]. *)
Definition callback_body (v : Version) (w : World) (reqbody : jsval)
    (l : list LogEntry) : Exc (Response * list LogEntry) :=
  b <- match v with
       | Part0A => Ret (get_opt reqbody "Body")
       | _ => get reqbody "Body"
       end ;;
  let cb := get_opt b "stkCallback" in
  if negb (truthy cb)
  then Ret (status_json 400
              (err match v with
                   | Part1 => "Invalid callback payload"
                   | _ => "Invalid data"
                   end), l)
  else
    let items := callback_items cb in
    receiptItem <- find_item "MpesaReceiptNumber" items ;;
    paid <- match v with
            | Part1 =>
                amountItem <- find_item "Amount" items ;;
                Ret (js_or (get_opt amountItem "Value") JNull)
            | _ => Ret JUndefined
            end ;;
    Ret (json ack, apply_callback v w cb receiptItem paid l).

(** Part0A and Part1 catch and answer 500; in ServerA and ServerB the
    exception leaves the handler. *)
Definition callback (v : Version) (w : World) (reqbody : jsval) (s : Server)
    : Response * Server :=
  match v with
  | Part0B => (no_route, s)
  | _ =>
      match callback_body v w reqbody (logs s) with
      | Ret (r, l) => (r, with_logs s l)
      | Throw _ =>
          (match v with
           | Part0A | Part1 => status_json 500 (err "Callback processing failed")
           | _ => uncaught
           end, s)
      end
  end.

End Handlers.

(** * Notions used in the statements *)

(** ** Payloads and outcomes *)

(** [req.body?.Body?.stkCallback]: the payload that the handler works on
    when it does not throw. *)
Definition stkCallback_of (reqbody : jsval) : jsval :=
  get_opt (get_opt reqbody "Body") "stkCallback".

Definition callback_id (reqbody : jsval) : jsval :=
  prop "CheckoutRequestID" (stkCallback_of reqbody).

(** A terminal state: ['Success'] or ['Failed']. *)
Definition terminal (e : LogEntry) : bool :=
  strict_eq (status e) (JStr "Success") || strict_eq (status e) (JStr "Failed").

(** The state of an orphan: the callback's result description; when that is
    empty or absent, part_000 falls back to the outcome and part_001 to
    ['Unknown']. *)
Definition orphan_status (v : Version) (cb : jsval) : jsval :=
  match v with
  | Part0A => js_or (prop "ResultDesc" cb) (outcome cb)
  | Part1 => js_or (prop "ResultDesc" cb) (JStr "Unknown")
  | _ => prop "ResultDesc" cb
  end.

(** The only field of a found record that depends on the time of the
    delivery is [expiry], stamped on success by the second version of
    server.js and by part_000. *)
Definition stamps_expiry (v : Version) (cb : jsval) : bool :=
  match v with
  | ServerB | Part0A => succeeded cb
  | _ => false
  end.

(** ** Identifiers *)

(** Pairwise distinct identifiers, by [===]. *)
Fixpoint distinct (ids : list jsval) : bool :=
  match ids with
  | [] => true
  | x :: rest => negb (existsb (strict_eq x) rest) && distinct rest
  end.

Definition unique_ids (l : list LogEntry) : bool :=
  distinct (map checkoutId l).

(** ** Answers *)

(** axios rejects an answered request only when its status is outside
    200-299. *)
Definition axios_rejects (e : JsError) : bool :=
  match response e with
  | Some (c, _) => negb ((200 <=? c) && (c <? 300))
  | None => true
  end.

(** The answer is not a success: its status is outside 200-299. *)
Definition is_error (r : Response) : bool :=
  negb ((200 <=? code r) && (code r <? 300)).

Definition declares_pay (v : Version) : bool :=
  match v with
  | ServerA | ServerB | Part1 => true
  | _ => false
  end.

Definition declares_stk (v : Version) : bool :=
  match v with
  | ServerB | Part0A | Part0B => true
  | _ => false
  end.

(** The answer carries an [error] text. *)
Definition error_body (r : Response) : bool :=
  match prop "error" (body r) with
  | JStr _ => true
  | _ => false
  end.

(** ** Token validity *)

(** The validity that the comments of [getAccessToken] give for a token:
    one hour. *)
Definition one_hour : Z := 60 * 60 * 1000.

(** The stored expiry lies strictly before the end of a validity window of
    [validity] milliseconds that starts when the answer is received. *)
Definition before_window_end (received validity stored : Z) : bool :=
  stored <? received + validity.

(** The validity that the gateway's answer states, in milliseconds: its
    [expires_in], a number of seconds that Daraja sends as a decimal string.
    [getAccessToken] does not read it. *)
Fixpoint decimal (acc : Z) (s : string) : option Z :=
  match s with
  | EmptyString => Some acc
  | String c r =>
      if is_digit c
      then decimal (acc * 10 + (Z.of_nat (nat_of_ascii c) - 48)) r
      else None
  end.

Definition stated_validity (data : jsval) : option Z :=
  match prop "expires_in" data with
  | JStr (String c r) => option_map (Z.mul 1000) (decimal 0 (String c r))
  | JNum (Fin q) => Some (Qfloor (q * inject_Z 1000))
  | _ => None
  end.

(** ** Requests that change the state *)

Inductive Request : Type :=
| ReqPay (w : World) (reqbody : jsval)
| ReqStk (w : World) (reqbody : jsval)
| ReqCallback (w : World) (reqbody : jsval).

Definition is_initiation (rq : Request) : bool :=
  match rq with
  | ReqCallback _ _ => false
  | _ => true
  end.

(** The record that an initiation appends has none of the fields that a
    callback sets. *)
Definition unreconciled (e : LogEntry) : Prop :=
  status e = JStr "Pending" /\ mpesaReceipt e = JUndefined /\
  resultDesc e = JUndefined /\ expiry e = JUndefined /\
  paidAmount e = JUndefined.

Section Runs.
Variable parseNumber : jsval -> num.
Variable printString : jsval -> string.
Variable v : Version.
Variable cfg : Config.

Definition handle (s : Server) (rq : Request) : Response * Server :=
  match rq with
  | ReqPay w reqbody => pay parseNumber printString v cfg w reqbody s
  | ReqStk w reqbody => stk_route v cfg w reqbody s
  | ReqCallback w reqbody => callback v w reqbody s
  end.

Definition step (s : Server) (rq : Request) : Server := snd (handle s rq).

Definition run (rqs : list Request) (s : Server) : Server :=
  fold_left step rqs s.

(** The record at index [i] of the Ledger after [rqs] is an orphan: it was
    appended by a callback. *)
Definition orphan_at (rqs : list Request) (i : nat) : Prop :=
  exists before w reqbody rest,
    rqs = (before ++ ReqCallback w reqbody :: rest)%list /\
    List.length (logs (run before initial)) = i /\
    List.length (logs (step (run before initial) (ReqCallback w reqbody))) = S i.

End Runs.

(** ** Sample requests *)

Definition demo_cfg : Config := mkConfig (Some "key") (Some "secret").

Definition demo_token : jsval :=
  JObj [("access_token", JStr "tok-1"); ("expires_in", JStr "3599")].

(** A world in which the gateway grants a token and accepts the STK push
    under the identifier [cid]. *)
Definition demo_world (t : Z) (cid : string) : World :=
  mkWorld t (t + 1) "20240101120000" "20240101120001"
    (OauthOk demo_token)
    (StkOk (JObj [("CheckoutRequestID", JStr cid); ("ResponseCode", JStr "0")])).

Definition item (n : string) (v : jsval) : jsval :=
  JObj [("Name", JStr n); ("Value", v)].

(** The envelope of a callback: identifier, result code, description and
    metadata items ([None]: no [CallbackMetadata]). *)
Definition envelope (cid : string) (rc : Z) (desc : string)
    (items : option (list jsval)) : jsval :=
  JObj [("Body",
         JObj [("stkCallback",
                JObj ([("CheckoutRequestID", JStr cid);
                       ("ResultCode", JNum (of_Z rc));
                       ("ResultDesc", JStr desc)]
                      ++ match items with
                         | Some l => [("CallbackMetadata", JObj [("Item", JArr l)])]
                         | None => []
                         end))])].

Definition paid_callback (cid : string) : jsval :=
  envelope cid 0 "The service request is processed successfully."
    (Some [item "Amount" (JNum (of_Z 20));
           item "MpesaReceiptNumber" (JStr "ABC123")]).

Definition cancelled_callback (cid : string) : jsval :=
  envelope cid 1032 "Request cancelled by user" None.

Definition no_parse : jsval -> num := fun _ => NaN.
Definition no_print : jsval -> string := fun _ => "".

(** The Ledger after one initiation for phone [0712345678] and amount 20:
    through [/pay] where the version has it, through [/api/mpesa/stk]
    otherwise. *)
Definition one_pending (v : Version) : Server :=
  let reqbody := JObj [("phone", JStr "0712345678"); ("amount", JNum (of_Z 20))] in
  match v with
  | ServerA | ServerB | Part1 =>
      snd (pay no_parse no_print v demo_cfg (demo_world 1000 "ws_CO_1") reqbody initial)
  | _ => snd (stk_route v demo_cfg (demo_world 1000 "ws_CO_1") reqbody initial)
  end.

(** Deliveries of callbacks, one after the other. *)
Definition deliver (v : Version) (s : Server) (d : World * jsval) : Server :=
  snd (callback v (fst d) (snd d) s).

Definition deliver_all (v : Version) (ds : list (World * jsval)) (s : Server)
    : Server :=
  fold_left (deliver v) ds s.

(** * Further code *)

(** ** Timestamps: [getTimestamp] *)

(** What the getters of a [Date] return: the year (from 0), the month
    counted from 0 as [getMonth] counts it, the day of the month, hours,
    minutes, seconds and milliseconds. *)
Record DateParts : Type := mkDate {
  year : N;
  month0 : N;
  day : N;
  hours : N;
  minutes : N;
  seconds : N;
  millis : N
}.

(** [String(n)] and [n.toString()] for a natural number. *)
Definition dec (n : N) : string := NilZero.string_of_uint (N.to_uint n).

Fixpoint repeat_char (c : ascii) (n : nat) : string :=
  match n with
  | O => EmptyString
  | S k => String c (repeat_char c k)
  end.

(** [s.padStart(n, c)]. *)
Definition padStart (n : nat) (c : ascii) (s : string) : string :=
  repeat_char c (n - String.length s) ++ s.

(** [date.toISOString()]: [YYYY-MM-DDTHH:mm:ss.sssZ], and a year above 9999
    as [+YYYYYY]. *)
Definition toISOString (d : DateParts) : string :=
  (if (year d <? 10000)%N then padStart 4 "0" (dec (year d))
   else "+" ++ padStart 6 "0" (dec (year d)))
  ++ "-" ++ padStart 2 "0" (dec (month0 d + 1))
  ++ "-" ++ padStart 2 "0" (dec (day d))
  ++ "T" ++ padStart 2 "0" (dec (hours d))
  ++ ":" ++ padStart 2 "0" (dec (minutes d))
  ++ ":" ++ padStart 2 "0" (dec (seconds d))
  ++ "." ++ padStart 3 "0" (dec (millis d))
  ++ "Z".

(** The class [[-:TZ.]]. *)
Definition is_separator (c : ascii) : bool :=
  Ascii.eqb c "-" || Ascii.eqb c ":" || Ascii.eqb c "T" || Ascii.eqb c "Z"
  || Ascii.eqb c ".".

(** [s.replace(/[...]/g, '')] for a class of characters. *)
Fixpoint remove_all (p : ascii -> bool) (s : string) : string :=
  match s with
  | EmptyString => EmptyString
  | String c r => if p c then remove_all p r else String c (remove_all p r)
  end.

(** [getTimestamp()].  The versions of server.js and part_000 format the
    UTC reading of the clock through [toISOString]; part_001 concatenates
    the getters of the local reading. *)
Definition getTimestamp (v : Version) (utc local : DateParts) : string :=
  match v with
  | Part1 =>
      dec (year local)
      ++ padStart 2 "0" (dec (month0 local + 1))
      ++ padStart 2 "0" (dec (day local))
      ++ padStart 2 "0" (dec (hours local))
      ++ padStart 2 "0" (dec (minutes local))
      ++ padStart 2 "0" (dec (seconds local))
  | _ => substring 0 14 (remove_all is_separator (toISOString utc))
  end.

(** [p] holds of the [k] numbers from [start] on. *)
Fixpoint all_from (p : N -> bool) (k : nat) (start : N) : bool :=
  match k with
  | O => true
  | S k' => p start && all_from p k' (N.succ start)
  end.

(** ** Start-up checks of part_000 (lines 30-41) *)

Record Env : Type := mkEnv {
  env_KEY : option string;
  env_SECRET : option string;
  env_SHORTCODE : option string;
  env_PASSKEY : option string;
  env_TILL : option string
}.

(** The list [missing] after the five checks. *)
Definition missing (e : Env) : list string :=
  ((if env_set (env_KEY e) then [] else ["DARAJA_CONSUMER_KEY"])
   ++ (if env_set (env_SECRET e) then [] else ["DARAJA_CONSUMER_SECRET"])
   ++ (if env_set (env_SHORTCODE e) then [] else ["BUSINESS_SHORTCODE"])
   ++ (if env_set (env_PASSKEY e) then [] else ["PASSKEY"])
   ++ (if negb (env_set (env_TILL e)) && negb (env_set (env_SHORTCODE e))
       then ["TILL_NUMBER or BUSINESS_SHORTCODE"] else []))%list.

(** The part of the environment that [getAccessToken] reads. *)
Definition config_of (e : Env) : Config := mkConfig (env_KEY e) (env_SECRET e).

(** ** Notions used in the further properties *)

(** [e'] carries what was written when [e] was created. *)
Definition same_creation (e e' : LogEntry) : Prop :=
  phone e' = phone e /\ amount e' = amount e /\ event e' = event e /\
  template e' = template e /\ timestamp e' = timestamp e /\
  checkoutId e' = checkoutId e /\ details e' = details e.

(** The record is an orphan's, or its amount is a number above 0 and at
    most [MAX_AMOUNT]. *)
Definition within_ceiling (e : LogEntry) : Prop :=
  phone e = JStr "unknown" \/
  exists a, amount e = JNum (Fin a) /\ (0 < a)%Q /\ (a <= inject_Z MAX_AMOUNT)%Q.

(** The phone that [/pay] stores for the [phone] of the request: part_001
    stores its normal form. *)
Definition stored_phone (printString : jsval -> string) (v : Version)
    (rawPhone : jsval) : jsval :=
  match v with
  | Part1 => normalizePhone (JStr (ToString printString (js_or rawPhone (JStr ""))))
  | _ => rawPhone
  end.

(** The object that [/api/mpesa/status] answers with for a record whose
    state, receipt, description and expiry are given. *)
Definition projection (e : LogEntry) (st receipt desc exp : jsval) : jsval :=
  JObj [("status", st); ("phone", phone e); ("amount", amount e);
        ("event", event e); ("template", template e);
        ("mpesaReceipt", receipt); ("resultDesc", desc); ("expiry", exp);
        ("checkoutId", checkoutId e)].

(** * Properties *)

(** ** Lists: [findIndex], [find_first], [update_at] *)

Section ListFacts.
Context {A : Type}.
Implicit Types (p : A -> bool) (f g : A -> A) (l : list A).

Lemma findIndex_Some p l i :
  findIndex p l = Some i ->
  exists x, nth_error l i = Some x /\ p x = true.
Proof.
  revert i; induction l as [|a l IH]; intros i; simpl; [discriminate|].
  destruct (p a) eqn:Ha.
  - intros [= <-]. exists a. auto.
  - destruct (findIndex p l) as [k|]; [|discriminate].
    intros [= <-]. destruct (IH k eq_refl) as (x & Hx & Hp). exists x. auto.
Qed.

Lemma find_first_app_new p l x :
  findIndex p l = None -> p x = true -> find_first p (l ++ [x]) = Some x.
Proof.
  induction l as [|a l IH]; simpl; intros Hn Hx.
  - now rewrite Hx.
  - destruct (p a); [discriminate|].
    destruct (findIndex p l); [discriminate|]. auto.
Qed.

Lemma update_at_length i f l : List.length (update_at i f l) = List.length l.
Proof.
  revert i; induction l as [|a l IH]; intros [|i]; simpl; auto.
Qed.

Lemma update_at_same i f l x :
  nth_error l i = Some x -> nth_error (update_at i f l) i = Some (f x).
Proof.
  revert i; induction l as [|a l IH]; intros [|i]; simpl; try discriminate.
  - now intros [= ->].
  - apply IH.
Qed.

Lemma update_at_other i j f l :
  i <> j -> nth_error (update_at i f l) j = nth_error l j.
Proof.
  revert i j; induction l as [|a l IH]; intros [|i] [|j] H; simpl; auto;
    congruence.
Qed.

Lemma update_at_twice i f g l :
  (forall x, f (g x) = f x) ->
  update_at i f (update_at i g l) = update_at i f l.
Proof.
  intros H. revert i; induction l as [|a l IH]; intros [|i]; simpl; auto.
  - now rewrite H.
  - now rewrite IH.
Qed.

Lemma findIndex_update_at p f l i :
  (forall x, p (f x) = p x) ->
  findIndex p (update_at i f l) = findIndex p l.
Proof.
  intros H. revert i; induction l as [|a l IH]; intros [|i]; simpl; auto.
  - now rewrite H.
  - now rewrite IH.
Qed.

Lemma findIndex_app_new p l x :
  findIndex p l = None -> p x = true ->
  findIndex p (l ++ [x]) = Some (List.length l).
Proof.
  induction l as [|a l IH]; simpl; intros Hn Hx.
  - now rewrite Hx.
  - destruct (p a); [discriminate|].
    destruct (findIndex p l); [discriminate|]. now rewrite IH.
Qed.

Lemma findIndex_app_none p l x :
  findIndex p l = None -> p x = false -> findIndex p (l ++ [x]) = None.
Proof.
  induction l as [|a l IH]; simpl; intros Hn Hx.
  - now rewrite Hx.
  - destruct (p a); [discriminate|].
    destruct (findIndex p l); [discriminate|]. now rewrite IH.
Qed.

Lemma update_at_last f l x :
  update_at (List.length l) f (l ++ [x]) = (l ++ [f x])%list.
Proof.
  induction l as [|a l IH]; simpl; [reflexivity|]. now rewrite IH.
Qed.

Lemma nth_error_app_old l x i y :
  nth_error l i = Some y -> nth_error (l ++ [x]) i = Some y.
Proof.
  intros H. rewrite nth_error_app1; auto.
  apply nth_error_Some. congruence.
Qed.

Lemma nth_error_app_last l x : nth_error (l ++ [x]) (List.length l) = Some x.
Proof.
  rewrite nth_error_app2 by lia. now rewrite Nat.sub_diag.
Qed.

End ListFacts.

(** ** Strict equality *)

Lemma strict_eq_str s v : strict_eq (JStr s) v = true <-> v = JStr s.
Proof.
  destruct v; simpl; split; try discriminate; intros H.
  - apply String.eqb_eq in H. congruence.
  - injection H as ->. apply String.eqb_refl.
Qed.

(** A value that [===] some value is [===] itself. *)
Lemma strict_eq_irrefl_left x c :
  strict_eq x c = true -> strict_eq c c = false -> False.
Proof.
  destruct x as [| |a|a|a|a|a], c as [| |b|b|b|b|b]; simpl;
    try discriminate; intros H0 H.
  - destruct b; discriminate.
  - destruct a as [| |p|], b as [| |q|]; simpl in *; try discriminate.
    assert (Hq : Qeq_bool q q = true) by (apply Qeq_bool_iff; reflexivity).
    congruence.
  - rewrite String.eqb_refl in H. discriminate.
Qed.

(** ** The callback handler, case by case *)

Lemma get_Ret o k x : get o k = Ret x -> x = get_opt o k.
Proof. destruct o; simpl; congruence. Qed.

(** A delivery either is acknowledged, and then the Ledger is updated by
    [apply_callback] with the payload's receipt item, or it is answered with
    another status, and then nothing changes.  Which of the two depends on
    the request body alone. *)
Lemma callback_cases v reqbody :
  (exists receiptItem paid,
      find_item "MpesaReceiptNumber" (callback_items (stkCallback_of reqbody))
        = Ret receiptItem /\
      forall w s,
        callback v w reqbody s =
          (json ack,
           with_logs s (apply_callback v w (stkCallback_of reqbody)
                          receiptItem paid (logs s))))
  \/ (exists r, code r <> 200 /\ forall w s, callback v w reqbody s = (r, s)).
Proof.
  unfold callback, callback_body, stkCallback_of.
  assert (Hs : forall s, with_logs s (logs s) = s) by (now intros []).
  destruct v; simpl;
    try (right; eexists; split; [|reflexivity]; discriminate).
  all: try (destruct (get reqbody "Body") as [b|e] eqn:Hb; simpl;
            [apply get_Ret in Hb; subst b
            | right; eexists; split; [|reflexivity]; discriminate]).
  all: set (cb := get_opt (get_opt reqbody "Body") "stkCallback").
  all: destruct (truthy cb); simpl;
    [| right; eexists; split; [|intros w s; rewrite Hs; reflexivity];
       discriminate].
  all: destruct (find_item "MpesaReceiptNumber" (callback_items cb))
         as [ri|e] eqn:Hr; simpl;
    [| right; eexists; split; [|reflexivity]; discriminate].
  all: try (destruct (find_item "Amount" (callback_items cb)) as [ai|e];
            simpl; [| right; eexists; split; [|reflexivity]; discriminate]).
  all: left; eexists; eexists; split; reflexivity.
Qed.

(** A delivery leaves every record at its index; the record is either
    untouched or reconciled with the payload. *)
Lemma callback_record v w reqbody s i e :
  nth_error (logs s) i = Some e ->
  exists e',
    nth_error (logs (snd (callback v w reqbody s))) i = Some e' /\
    (e' = e \/
     exists ri paid, e' = reconcile v w (stkCallback_of reqbody) ri paid e).
Proof.
  intros He.
  destruct (callback_cases v reqbody) as [(ri & paid & _ & H)|(r & Hc & H)];
    rewrite H; simpl; [|eauto].
  unfold apply_callback. destruct (findIndex _ (logs s)) as [k|].
  - destruct (Nat.eq_dec k i) as [->|Hne].
    + eexists. split; [apply update_at_same, He|]. right. eauto.
    + exists e. rewrite update_at_other by exact Hne. auto.
  - exists e. split; [now apply nth_error_app_old|auto].
Qed.

(** The same, with the value that part_001 reads from the payload's
    [Amount] item. *)
Lemma callback_cases_paid v reqbody :
  (exists receiptItem paid,
      find_item "MpesaReceiptNumber" (callback_items (stkCallback_of reqbody))
        = Ret receiptItem /\
      match v with
      | Part1 =>
          exists amountItem,
            find_item "Amount" (callback_items (stkCallback_of reqbody))
              = Ret amountItem /\
            paid = js_or (get_opt amountItem "Value") JNull
      | _ => paid = JUndefined
      end /\
      forall w s,
        callback v w reqbody s =
          (json ack,
           with_logs s (apply_callback v w (stkCallback_of reqbody)
                          receiptItem paid (logs s))))
  \/ (exists r, code r <> 200 /\ forall w s, callback v w reqbody s = (r, s)).
Proof.
  unfold callback, callback_body, stkCallback_of.
  assert (Hs : forall s, with_logs s (logs s) = s) by (now intros []).
  destruct v; simpl;
    try (right; eexists; split; [|reflexivity]; discriminate).
  all: try (destruct (get reqbody "Body") as [b|e] eqn:Hb; simpl;
            [apply get_Ret in Hb; subst b
            | right; eexists; split; [|reflexivity]; discriminate]).
  all: set (cb := get_opt (get_opt reqbody "Body") "stkCallback").
  all: destruct (truthy cb); simpl;
    [| right; eexists; split; [|intros w s; rewrite Hs; reflexivity];
       discriminate].
  all: destruct (find_item "MpesaReceiptNumber" (callback_items cb))
         as [ri|e] eqn:Hr; simpl;
    [| right; eexists; split; [|reflexivity]; discriminate].
  all: try (destruct (find_item "Amount" (callback_items cb)) as [ai|e] eqn:Ha;
            simpl; [| right; eexists; split; [|reflexivity]; discriminate]).
  all: left; eexists; eexists; split; [reflexivity|]; split;
    [first [reflexivity | eexists; split; reflexivity] | reflexivity].
Qed.

(** ** C1: state transitions *)

(** C1, as stated, fails: a record that a callback has brought to Success,
    with its receipt, is brought to Failed by a later callback for the same
    identifier, and loses the receipt.  Evaluated on the first version of
    server.js and on part_000. *)
Lemma terminal_record_overwritten :
  let w := demo_world 5000 "ws_CO_1" in
  let once v := deliver_all v [(w, paid_callback "ws_CO_1")] (one_pending v) in
  let twice v :=
    deliver_all v [(w, paid_callback "ws_CO_1");
                   (w, cancelled_callback "ws_CO_1")] (one_pending v) in
  map status (logs (one_pending ServerA)) = [JStr "Pending"] /\
  map status (logs (once ServerA)) = [JStr "Success"] /\
  map mpesaReceipt (logs (once ServerA)) = [JStr "ABC123"] /\
  map status (logs (twice ServerA)) = [JStr "Failed"] /\
  map mpesaReceipt (logs (twice ServerA)) = [JUndefined] /\
  map status (logs (one_pending Part0A)) = [JStr "Pending"] /\
  map status (logs (once Part0A)) = [JStr "Success"] /\
  map mpesaReceipt (logs (once Part0A)) = [JStr "ABC123"] /\
  map status (logs (twice Part0A)) = [JStr "Failed"] /\
  map mpesaReceipt (logs (twice Part0A)) = [JNull].
Proof. vm_compute. repeat split. Qed.

(** C1, amended: an acknowledged callback (one answered 200) for an
    identifier found in the Ledger sets the state of the first record with
    that identifier to Success when the result code is 0 and to Failed
    otherwise, whatever state the record was in, and overwrites its receipt
    with the value of the payload's receipt item and its result description
    with the payload's description ([null] or [undefined] where the payload
    has none); the versions that stamp [expiry] set it on success and
    part_001 records a paid amount that the payload carries.  A callback
    that is not acknowledged, or whose identifier resolves to another
    record, leaves the record as it is.  The fields set at initiation
    (phone, amount, event, template, timestamp, checkoutId, details) never
    change, and a record whose state already is the callback's outcome
    keeps that state. *)
Theorem callback_sets_outcome v w reqbody s i e :
  nth_error (logs s) i = Some e ->
  let r := fst (callback v w reqbody s) in
  let s' := snd (callback v w reqbody s) in
  let found := findIndex (has_id (callback_id reqbody)) (logs s) in
  let cb := stkCallback_of reqbody in
  exists e',
    nth_error (logs s') i = Some e' /\
    (phone e' = phone e /\ amount e' = amount e /\ event e' = event e /\
     template e' = template e /\ timestamp e' = timestamp e /\
     checkoutId e' = checkoutId e /\ details e' = details e) /\
    (code r = 200 -> found = Some i ->
     status e' = (if strict_eq (prop "ResultCode" cb) (JNum (of_Z 0))
                  then JStr "Success" else JStr "Failed") /\
     (exists receiptItem,
         find_item "MpesaReceiptNumber" (callback_items cb) = Ret receiptItem /\
         mpesaReceipt e' = match v with
                           | ServerA => get_opt receiptItem "Value"
                           | _ => js_or (get_opt receiptItem "Value") JNull
                           end) /\
     resultDesc e' = match v with
                     | ServerA | Part1 => prop "ResultDesc" cb
                     | _ => js_or (prop "ResultDesc" cb) JNull
                     end /\
     expiry e' = match v with
                 | ServerB | Part0A =>
                     if strict_eq (prop "ResultCode" cb) (JNum (of_Z 0))
                     then JNum (of_Z (now w + 43200000))
                     else expiry e
                 | _ => expiry e
                 end /\
     match v with
     | Part1 =>
         exists amountItem,
           find_item "Amount" (callback_items cb) = Ret amountItem /\
           paidAmount e' = if truthy (get_opt amountItem "Value")
                           then get_opt amountItem "Value"
                           else paidAmount e
     | _ => paidAmount e' = paidAmount e
     end) /\
    (code r <> 200 \/ found <> Some i -> e' = e) /\
    (status e = outcome cb -> status e' = status e).
Proof.
  intros He r s' found cb. subst r s' found cb. unfold callback_id.
  destruct (callback_cases_paid v reqbody)
    as [(ri & paid & Hri & Hpaid & H)|(r & Hc & H)]; rewrite H; clear H.
  - simpl. unfold apply_callback.
    destruct (findIndex _ (logs s)) as [k|] eqn:Hk.
    + destruct (Nat.eq_dec k i) as [->|Hne].
      * eexists. split; [apply update_at_same, He|].
        split; [simpl; repeat split|].
        split; [|split; [intros [Hx|Hx]; congruence | simpl; auto]].
        intros _ _. simpl.
        split; [reflexivity|].
        split; [exists ri; split; [exact Hri | destruct v; reflexivity]|].
        split; [destruct v; reflexivity|].
        split; [destruct v; reflexivity|].
        destruct v; try exact eq_refl; try (subst paid; reflexivity).
        destruct Hpaid as (ai & Hai & ->). exists ai. split; [exact Hai|].
        unfold js_or. destruct (truthy (get_opt ai "Value")) eqn:Ht;
          [now rewrite Ht | reflexivity].
      * exists e. rewrite update_at_other by exact Hne.
        split; [exact He|]. split; [repeat split|].
        split; [intros _ Hx; congruence | split; reflexivity].
    + exists e. split; [now apply nth_error_app_old|].
      split; [repeat split|].
      split; [intros _ Hx; discriminate Hx | split; reflexivity].
  - exists e. split; [exact He|]. split; [repeat split|].
    split; [intros Hx; contradiction | split; reflexivity].
Qed.

Lemma callback_sets_outcome_witness :
  exists e',
    nth_error (logs (deliver Part0A (one_pending Part0A)
                       (demo_world 5000 "ws_CO_1", paid_callback "ws_CO_1"))) 0
      = Some e' /\
    status e' = JStr "Success" /\
    resultDesc e' = JStr "The service request is processed successfully.".
Proof.
  destruct (callback_sets_outcome Part0A (demo_world 5000 "ws_CO_1")
              (paid_callback "ws_CO_1") (one_pending Part0A) 0
              (pending (JStr "0712345678") (JNum (of_Z 20)) JNull JNull
                 "20240101120001" (JStr "ws_CO_1")
                 (JObj [("CheckoutRequestID", JStr "ws_CO_1");
                        ("ResponseCode", JStr "0")]))
              eq_refl)
    as (e' & Hn & _ & Hs & _).
  destruct Hs as (Hst & _ & Hd & _); [reflexivity | reflexivity |].
  exists e'. split; [exact Hn|]. split; [exact Hst | exact Hd].
Defined.

(** ** C2: delivering a callback twice *)

Lemma reconcile_keeps_id v w cb ri paid cid e :
  has_id cid (reconcile v w cb ri paid e) = has_id cid e.
Proof. reflexivity. Qed.

Lemma reconcile_twice v w1 w2 cb ri paid e :
  reconcile v w2 cb ri paid (reconcile v w1 cb ri paid e)
  = reconcile v w2 cb ri paid e.
Proof.
  unfold reconcile; simpl.
  destruct v; simpl; try reflexivity;
    destruct (succeeded cb); try reflexivity;
    destruct (truthy paid); reflexivity.
Qed.

Lemma apply_callback_twice v w1 w2 cb ri paid l :
  findIndex (has_id (prop "CheckoutRequestID" cb)) l <> None ->
  apply_callback v w2 cb ri paid (apply_callback v w1 cb ri paid l)
  = apply_callback v w2 cb ri paid l.
Proof.
  intros Hf. unfold apply_callback at 2.
  destruct (findIndex _ l) as [i|] eqn:Hi; [|congruence].
  unfold apply_callback.
  rewrite findIndex_update_at by (intros; apply reconcile_keeps_id).
  rewrite Hi. apply update_at_twice. intros. apply reconcile_twice.
Qed.

Lemma reconcile_time v w1 w2 cb ri paid e :
  now w1 = now w2 \/ stamps_expiry v cb = false ->
  reconcile v w2 cb ri paid e = reconcile v w1 cb ri paid e.
Proof.
  unfold reconcile, stamps_expiry.
  intros [->|H]; [reflexivity|].
  destruct v; try reflexivity; rewrite H; reflexivity.
Qed.

Lemma update_at_ext {A : Type} i (f g : A -> A) l :
  (forall x, f x = g x) -> update_at i f l = update_at i g l.
Proof.
  intros H. revert i; induction l as [|a l IH]; intros [|i]; simpl; auto.
  - now rewrite H.
  - now rewrite IH.
Qed.

(** C2, as stated, fails.  (1) For an identifier that matches no record, the
    first delivery appends an orphan whose state is the result description;
    the second delivery of the same payload finds that orphan and rewrites
    its state and receipt.  (2) For a Pending record in part_000, the second
    delivery of a successful outcome moves [expiry]. *)
Lemma second_delivery_changes_ledger :
  let d t := (demo_world t "ws_CO_1", paid_callback "ZZZ999") in
  let once := deliver_all Part0A [d 5000] initial in
  let twice := deliver_all Part0A [d 5000; d 5000] initial in
  let p t := (demo_world t "ws_CO_1", paid_callback "ws_CO_1") in
  let once' := deliver_all Part0A [p 5000] (one_pending Part0A) in
  let twice' := deliver_all Part0A [p 5000; p 9000] (one_pending Part0A) in
  map status (logs once)
    = [JStr "The service request is processed successfully."] /\
  map mpesaReceipt (logs once) = [JUndefined] /\
  map status (logs twice) = [JStr "Success"] /\
  map mpesaReceipt (logs twice) = [JStr "ABC123"] /\
  map expiry (logs once') = [JNum (of_Z 43205000)] /\
  map expiry (logs twice') = [JNum (of_Z 43209000)].
Proof. vm_compute. repeat split. Qed.

(** C2, amended: the two deliveries of one payload get the same answer.
    For a callback whose identifier is found in the Ledger, delivering the
    payload twice leaves the Ledger, and gives the answer, that a single
    delivery at the time of the second gives; the second delivery is a
    no-op when the two deliveries read the same clock or the version stamps
    no [expiry] for the payload (a failed outcome, or a version other than
    the second server.js and part_000), and otherwise it only moves
    [expiry].  For an identifier that no record has, when the first
    delivery is acknowledged (answered 200) and the identifier is equal to
    itself under [===], as a string is, the first delivery appends an
    orphan and the second appends nothing: it finds that orphan and
    reconciles it, so that its state becomes the outcome.  A delivery that
    is not acknowledged changes nothing, the first time and the second.
    When the identifier is not equal to itself under [===] (an object or
    an array), no lookup finds it and each acknowledged delivery appends an
    orphan of its own. *)
Theorem same_callback_twice v w1 w2 reqbody s :
  let first := callback v w1 reqbody s in
  let second := callback v w2 reqbody (snd first) in
  let found := findIndex (has_id (callback_id reqbody)) (logs s) in
  fst second = fst first /\
  (found <> None ->
   second = callback v w2 reqbody s /\
   (now w1 = now w2 \/ stamps_expiry v (stkCallback_of reqbody) = false ->
    snd second = snd first)) /\
  (found = None -> code (fst first) = 200 ->
   strict_eq (callback_id reqbody) (callback_id reqbody) = true ->
   exists o o',
     logs (snd first) = (logs s ++ [o])%list /\
     logs (snd second) = (logs s ++ [o'])%list /\
     status o = orphan_status v (stkCallback_of reqbody) /\
     status o' = outcome (stkCallback_of reqbody) /\
     phone o' = phone o /\ checkoutId o' = checkoutId o /\
     details o' = details o) /\
  (code (fst first) <> 200 -> snd first = s /\ snd second = s) /\
  (code (fst first) = 200 ->
   strict_eq (callback_id reqbody) (callback_id reqbody) = false ->
   found = None /\
   exists o o',
     logs (snd first) = (logs s ++ [o])%list /\
     logs (snd second) = (logs s ++ [o; o'])%list /\
     phone o = JStr "unknown" /\ phone o' = JStr "unknown" /\
     checkoutId o = callback_id reqbody /\
     checkoutId o' = callback_id reqbody /\
     timestamp o = JStr (stamp w1) /\ timestamp o' = JStr (stamp w2)).
Proof.
  intros first second found. subst first second found. unfold callback_id.
  destruct (callback_cases v reqbody) as [(ri & paid & _ & H)|(r & Hc & H)];
    rewrite !H; simpl.
  - split; [reflexivity|]. split; [|split; [|split]].
    + intros Hf. unfold with_logs; simpl.
      rewrite apply_callback_twice by exact Hf.
      split; [reflexivity|]. intros Ht. f_equal.
      unfold apply_callback.
      destruct (findIndex _ (logs s)); [|congruence].
      apply update_at_ext. intros; now apply reconcile_time.
    + intros Hn _ Hid. unfold apply_callback. rewrite !Hn.
      rewrite findIndex_app_new by (auto; exact Hid).
      rewrite update_at_last.
      do 2 eexists. split; [reflexivity|]. split; [reflexivity|].
      simpl. repeat split; reflexivity.
    + intros Hx. now contradiction Hx.
    + intros _ Hid.
      assert (Hn : findIndex
                     (has_id (prop "CheckoutRequestID" (stkCallback_of reqbody)))
                     (logs s) = None).
      { destruct (findIndex _ (logs s)) as [k|] eqn:Hk; [|reflexivity].
        apply findIndex_Some in Hk. destruct Hk as (x & _ & Hp).
        exfalso. revert Hp Hid. unfold has_id. apply strict_eq_irrefl_left. }
      split; [exact Hn|].
      unfold apply_callback. rewrite !Hn.
      rewrite findIndex_app_none by (auto; exact Hid).
      do 2 eexists. split; [reflexivity|].
      split; [rewrite <- app_assoc; reflexivity|].
      simpl. repeat split; reflexivity.
  - split; [reflexivity|]. split; [auto|].
    split; [intros _ Hr; contradiction|].
    split; [intros _; split; reflexivity | intros Hr; contradiction].
Qed.

Lemma same_callback_twice_witness :
  let s := one_pending Part0A in
  let d := paid_callback "ws_CO_1" in
  let first := callback Part0A (demo_world 5000 "x") d s in
  callback Part0A (demo_world 9000 "x") d (snd first)
  = callback Part0A (demo_world 9000 "x") d s.
Proof.
  destruct (same_callback_twice Part0A (demo_world 5000 "x") (demo_world 9000 "x")
              (paid_callback "ws_CO_1") (one_pending Part0A))
    as (_ & H & _).
  apply H. vm_compute. discriminate.
Defined.

(** ** C3: callbacks for an unknown identifier *)

(** C3, as stated, fails: the orphan that part_001 and part_000 create for
    a successful callback is stored and found by its identifier, but its
    state is the result description, not a terminal state. *)
Lemma orphan_state_not_terminal :
  let d := (demo_world 5000 "ws_CO_1", paid_callback "ZZZ999") in
  let s1 := deliver_all Part1 [d] initial in
  let s0 := deliver_all Part0A [d] initial in
  option_map status (findByCheckoutId (JStr "ZZZ999") (logs s1))
    = Some (JStr "The service request is processed successfully.") /\
  option_map terminal (findByCheckoutId (JStr "ZZZ999") (logs s1)) = Some false /\
  option_map status (findByCheckoutId (JStr "ZZZ999") (logs s0))
    = Some (JStr "The service request is processed successfully.") /\
  option_map terminal (findByCheckoutId (JStr "ZZZ999") (logs s0)) = Some false.
Proof. vm_compute. repeat split. Qed.

(** C3, amended: an acknowledged callback whose identifier matches no
    record appends one orphan record, which carries the identifier, the
    phone ['unknown'] and the whole callback payload as [details], and whose
    state is the callback's result description (with the fallback of
    [orphan_status] when there is none); when the identifier is a value
    equal to itself, as every string is, the lookup by that identifier
    afterwards returns this record. *)
Theorem unknown_callback_recorded v w reqbody s :
  code (fst (callback v w reqbody s)) = 200 ->
  findIndex (has_id (callback_id reqbody)) (logs s) = None ->
  exists o,
    logs (snd (callback v w reqbody s)) = (logs s ++ [o])%list /\
    checkoutId o = callback_id reqbody /\
    phone o = JStr "unknown" /\
    details o = stkCallback_of reqbody /\
    status o = orphan_status v (stkCallback_of reqbody) /\
    (forall d, prop "ResultDesc" (stkCallback_of reqbody) = JStr d -> d <> "" ->
               status o = JStr d) /\
    (strict_eq (callback_id reqbody) (callback_id reqbody) = true ->
     findByCheckoutId (callback_id reqbody) (logs (snd (callback v w reqbody s)))
       = Some o).
Proof.
  unfold callback_id.
  destruct (callback_cases v reqbody) as [(ri & paid & _ & H)|(r & Hc & H)];
    rewrite !H; simpl; [|contradiction].
  intros _ Hn. unfold apply_callback. rewrite Hn.
  eexists. split; [reflexivity|]. simpl.
  do 4 (split; [reflexivity|]). split.
  - intros d Hd Hne. rewrite Hd.
    assert (Ht : truthy (JStr d) = true).
    { simpl. destruct (String.eqb_spec d ""); [contradiction|reflexivity]. }
    destruct v; unfold js_or; rewrite ?Ht; reflexivity.
  - intros Hr. unfold findByCheckoutId. apply find_first_app_new; assumption.
Qed.

Lemma unknown_callback_recorded_witness :
  exists o,
    logs (snd (callback Part1 (demo_world 5000 "x") (paid_callback "ZZZ999") initial))
      = [o] /\
    checkoutId o = JStr "ZZZ999".
Proof.
  destruct (unknown_callback_recorded Part1 (demo_world 5000 "x")
              (paid_callback "ZZZ999") initial eq_refl eq_refl)
    as (o & Hl & Hc & _).
  exists o. split; [exact Hl | exact Hc].
Defined.

(** ** C4 and C5: what an initiation appends *)

Lemma findIndex_None_existsb x l :
  findIndex (has_id x) l = None <->
  existsb (fun y => strict_eq y x) (map checkoutId l) = false.
Proof.
  induction l as [|a l IH]; simpl; [tauto|].
  unfold has_id at 1. destruct (strict_eq (checkoutId a) x); simpl.
  - split; discriminate.
  - destruct (findIndex (has_id x) l); split; intros H;
      try discriminate; try (apply IH; assumption); auto.
    apply IH in H. discriminate.
Qed.

Lemma distinct_snoc ids x :
  distinct (ids ++ [x]) =
  distinct ids && negb (existsb (fun y => strict_eq y x) ids).
Proof.
  induction ids as [|a ids IH]; simpl; [reflexivity|].
  rewrite IH, existsb_app. simpl. rewrite orb_false_r.
  destruct (existsb (strict_eq a) ids), (strict_eq a x), (distinct ids);
    simpl; auto; now destruct (existsb _ ids).
Qed.

Lemma unique_ids_push l e :
  unique_ids l = true ->
  findIndex (has_id (checkoutId e)) l = None ->
  unique_ids (l ++ [e]) = true.
Proof.
  unfold unique_ids. intros Hu Hn. rewrite map_app. simpl.
  rewrite distinct_snoc, Hu. apply findIndex_None_existsb in Hn.
  now rewrite Hn.
Qed.

Lemma update_at_ids i f (l : list LogEntry) :
  (forall e, checkoutId (f e) = checkoutId e) ->
  map checkoutId (update_at i f l) = map checkoutId l.
Proof.
  intros H. revert i; induction l as [|a l IH]; intros [|i]; simpl; auto.
  - now rewrite H.
  - now rewrite IH.
Qed.

(** What [/pay] and [/api/mpesa/stk] do with the Ledger does not depend on
    the records it holds: the answer, and the records appended, are the same
    for every content of [logs]. *)
Lemma submit_pay_shape v cfg w ph am c :
  exists r c' added,
    (forall l, submit_pay v cfg w ph am (mkServer l c)
               = (r, mkServer (l ++ added) c')) /\
    (added = [] \/
     exists data cid,
       stk w = StkOk data /\ get data "CheckoutRequestID" = Ret cid /\
       added = [pending ph am JUndefined JUndefined (stamp w) cid data]).
Proof.
  unfold submit_pay, with_cache, push, with_logs, stkpush; simpl.
  destruct (token (getAccessToken v cfg w c)) as [tok|e]; simpl.
  2:{ do 3 eexists. split; [intros l; rewrite app_nil_r; reflexivity|now left]. }
  destruct (stk w) as [data|e]; simpl.
  2:{ do 3 eexists. split; [intros l; rewrite app_nil_r; reflexivity|now left]. }
  destruct (get data "CheckoutRequestID") as [cid|e] eqn:Hc; simpl.
  2:{ do 3 eexists. split; [intros l; rewrite app_nil_r; reflexivity|now left]. }
  do 3 eexists. split; [intros l; reflexivity|].
  right. exists data, cid. auto.
Qed.

Section Initiation.
Variable parseNumber : jsval -> num.
Variable printString : jsval -> string.

Lemma pay_shape v cfg w reqbody c :
  exists r c' added,
    (forall l, pay parseNumber printString v cfg w reqbody (mkServer l c)
               = (r, mkServer (l ++ added) c')) /\
    (added = [] \/
     exists e, added = [e] /\ status e = JStr "Pending" /\
               exists data, stk w = StkOk data /\
                            get data "CheckoutRequestID" = Ret (checkoutId e)).
Proof.
  assert (Same : forall (r : Response),
    exists r0 c' added,
      (forall l, (r, mkServer l c) = (r0, mkServer (l ++ added) c')) /\
      (added = [] \/
       exists e, added = [e] /\ status e = JStr "Pending" /\
                 exists data, stk w = StkOk data /\
                              get data "CheckoutRequestID" = Ret (checkoutId e))).
  { intros r. exists r, c, []. split; [|now left].
    intros l. now rewrite app_nil_r. }
  assert (Sub : forall ph am,
    exists r c' added,
      (forall l, submit_pay v cfg w ph am (mkServer l c)
                 = (r, mkServer (l ++ added) c')) /\
      (added = [] \/
       exists e, added = [e] /\ status e = JStr "Pending" /\
                 exists data, stk w = StkOk data /\
                              get data "CheckoutRequestID" = Ret (checkoutId e))).
  { intros ph am.
    destruct (submit_pay_shape v cfg w ph am c) as (r & c' & added & H & Ha).
    exists r, c', added. split; [exact H|].
    destruct Ha as [->|(data & cid & Hs & Hg & ->)]; [now left|right].
    eexists. split; [reflexivity|]. split; [reflexivity|].
    exists data. auto. }
  unfold pay. destruct v; try apply Same.
  all: destruct (get reqbody "phone") as [ph|e]; try apply Same; try apply Sub.
  destruct (check_amount parseNumber (prop "amount" reqbody)) as [r|n];
    try apply Same.
  destruct (negb (truthy _)); [apply Same | apply Sub].
Qed.

End Initiation.

Lemma stk_route_shape v cfg w reqbody c :
  exists r c' added,
    (forall l, stk_route v cfg w reqbody (mkServer l c)
               = (r, mkServer (l ++ added) c')) /\
    (added = [] \/
     exists e, added = [e] /\ status e = JStr "Pending" /\
               exists data, stk w = StkOk data /\
                 (checkoutId e = prop "CheckoutRequestID" data \/
                  checkoutId e = JNull)).
Proof.
  unfold stk_route, with_cache, push, with_logs, stkpush; simpl.
  assert (Hnil : forall l : list LogEntry, l = (l ++ [])%list)
    by (intros; now rewrite app_nil_r).
  destruct v; simpl;
    try (do 3 eexists; split; [intros l; rewrite (Hnil l) at 1; reflexivity
                              | now left]).
  all: destruct (truthy (prop "phone" (js_or reqbody (JObj [])))); simpl;
    try (do 3 eexists; split; [intros l; rewrite (Hnil l) at 1; reflexivity
                              | now left]).
  all: destruct (token (getAccessToken _ cfg w c)) as [tok|e]; simpl;
    try (do 3 eexists; split; [intros l; rewrite (Hnil l) at 1; reflexivity
                              | now left]).
  all: try (destruct (truthy tok); simpl;
    try (do 3 eexists; split; [intros l; rewrite (Hnil l) at 1; reflexivity
                              | now left])).
  all: destruct (stk w) as [data|e]; simpl;
    try (do 3 eexists; split; [intros l; rewrite (Hnil l) at 1; reflexivity
                              | now left]).
  all: try (destruct (get data "CheckoutRequestID") as [cid|e] eqn:Hg; simpl;
    [apply get_Ret in Hg
    | do 3 eexists; split; [intros l; rewrite (Hnil l) at 1; reflexivity
                           | now left]]).
  all: do 3 eexists; (split; [intros l; reflexivity|]); right;
    eexists; (split; [reflexivity|]); (split; [reflexivity|]);
    exists data; (split; [reflexivity|]); simpl.
  all: unfold js_or;
    repeat match goal with
           | |- context [if truthy ?x then _ else _] => destruct (truthy x)
           end; auto;
    left; try subst cid; destruct data; reflexivity.
Qed.

Section RunFacts.
Variable parseNumber : jsval -> num.
Variable printString : jsval -> string.
Variable v : Version.
Variable cfg : Config.

Lemma initiation_shape rq c :
  is_initiation rq = true ->
  exists r c' added,
    (forall l, handle parseNumber printString v cfg (mkServer l c) rq
               = (r, mkServer (l ++ added) c')) /\
    (added = [] \/ exists e, added = [e] /\ status e = JStr "Pending").
Proof.
  destruct rq as [w b|w b|w b]; simpl; [| |discriminate]; intros _.
  - destruct (pay_shape parseNumber printString v cfg w b c)
      as (r & c' & added & H & Ha).
    exists r, c', added. split; [exact H|].
    destruct Ha as [->|(e & -> & Hs & _)]; [now left|right; eauto].
  - destruct (stk_route_shape v cfg w b c) as (r & c' & added & H & Ha).
    exists r, c', added. split; [exact H|].
    destruct Ha as [->|(e & -> & Hs & _)]; [now left|right; eauto].
Qed.

Lemma callback_keeps_unique w reqbody s :
  unique_ids (logs s) = true ->
  unique_ids (logs (snd (callback v w reqbody s))) = true.
Proof.
  intros Hu.
  destruct (callback_cases v reqbody) as [(ri & paid & _ & H)|(r & Hc & H)];
    rewrite H; simpl; [|exact Hu].
  unfold apply_callback.
  destruct (findIndex _ (logs s)) eqn:Hf.
  - unfold unique_ids. now rewrite update_at_ids by reflexivity.
  - apply unique_ids_push; [exact Hu|exact Hf].
Qed.

End RunFacts.

(** ** C9: what an initiation leaves unset *)

Lemma stk_route_appends_unreconciled v cfg w reqbody c :
  exists r c' added,
    (forall l, stk_route v cfg w reqbody (mkServer l c)
               = (r, mkServer (l ++ added) c')) /\
    (added = [] \/ exists e, added = [e] /\ unreconciled e).
Proof.
  unfold stk_route, with_cache, push, with_logs, stkpush; simpl.
  assert (Hnil : forall l : list LogEntry, l = (l ++ [])%list)
    by (intros; now rewrite app_nil_r).
  destruct v; simpl;
    try (do 3 eexists; split; [intros l; rewrite (Hnil l) at 1; reflexivity
                              | now left]).
  all: destruct (truthy (prop "phone" (js_or reqbody (JObj [])))); simpl;
    try (do 3 eexists; split; [intros l; rewrite (Hnil l) at 1; reflexivity
                              | now left]).
  all: destruct (token (getAccessToken _ cfg w c)) as [tok|e]; simpl;
    try (do 3 eexists; split; [intros l; rewrite (Hnil l) at 1; reflexivity
                              | now left]).
  all: try (destruct (truthy tok); simpl;
    try (do 3 eexists; split; [intros l; rewrite (Hnil l) at 1; reflexivity
                              | now left])).
  all: destruct (stk w) as [data|e]; simpl;
    try (do 3 eexists; split; [intros l; rewrite (Hnil l) at 1; reflexivity
                              | now left]).
  all: try (destruct (get data "CheckoutRequestID") as [cid|e] eqn:Hg; simpl;
    [| do 3 eexists; split; [intros l; rewrite (Hnil l) at 1; reflexivity
                           | now left]]).
  all: do 3 eexists; (split; [intros l; reflexivity|]); right;
    eexists; (split; [reflexivity|]); repeat split.
Qed.

Section Unreconciled.
Variable parseNumber : jsval -> num.
Variable printString : jsval -> string.
Variable v : Version.
Variable cfg : Config.

Lemma pay_appends_unreconciled w reqbody c :
  exists r c' added,
    (forall l, pay parseNumber printString v cfg w reqbody (mkServer l c)
               = (r, mkServer (l ++ added) c')) /\
    (added = [] \/ exists e, added = [e] /\ unreconciled e).
Proof.
  assert (Same : forall (r : Response),
    exists r0 c' added,
      (forall l, (r, mkServer l c) = (r0, mkServer (l ++ added) c')) /\
      (added = [] \/ exists e, added = [e] /\ unreconciled e)).
  { intros r. exists r, c, []. split; [|now left].
    intros l. now rewrite app_nil_r. }
  assert (Sub : forall ph am,
    exists r c' added,
      (forall l, submit_pay v cfg w ph am (mkServer l c)
                 = (r, mkServer (l ++ added) c')) /\
      (added = [] \/ exists e, added = [e] /\ unreconciled e)).
  { intros ph am.
    destruct (submit_pay_shape v cfg w ph am c) as (r & c' & added & H & Ha).
    exists r, c', added. split; [exact H|].
    destruct Ha as [->|(data & cid & Hs & Hg & ->)]; [now left|right].
    eexists. split; [reflexivity|]. repeat split. }
  unfold pay. destruct v; try apply Same.
  all: destruct (get reqbody "phone") as [ph|e]; try apply Same; try apply Sub.
  destruct (check_amount parseNumber (prop "amount" reqbody)) as [r|n];
    try apply Same.
  destruct (negb (truthy _)); [apply Same | apply Sub].
Qed.

Lemma initiation_appends_unreconciled s rq e :
  is_initiation rq = true ->
  logs (step parseNumber printString v cfg s rq) = (logs s ++ [e])%list ->
  unreconciled e.
Proof.
  destruct s as [l c]. unfold step.
  destruct rq as [w b|w b|w b]; simpl; [| |discriminate]; intros _.
  - destruct (pay_appends_unreconciled w b c) as (r & c' & added & H & Ha).
    rewrite H; simpl. intros Heq. apply app_inv_head in Heq.
    destruct Ha as [->|(e0 & -> & Hu)]; [discriminate|].
    now injection Heq as <-.
  - destruct (stk_route_appends_unreconciled v cfg w b c)
      as (r & c' & added & H & Ha).
    rewrite H; simpl. intros Heq. apply app_inv_head in Heq.
    destruct Ha as [->|(e0 & -> & Hu)]; [discriminate|].
    now injection Heq as <-.
Qed.

End Unreconciled.

(** ** C9: the receipt reference *)

(** C9, as stated, fails: a callback with a non-zero result code that
    carries a receipt item leaves the record Failed with that receipt.
    Evaluated on the first version of server.js and on part_000. *)
Lemma failed_record_with_receipt :
  let bad :=
    envelope "ws_CO_1" 1 "Failed"
      (Some [item "MpesaReceiptNumber" (JStr "ABC123")]) in
  let after v :=
    deliver_all v [(demo_world 5000 "x", bad)] (one_pending v) in
  map status (logs (after ServerA)) = [JStr "Failed"] /\
  map mpesaReceipt (logs (after ServerA)) = [JStr "ABC123"] /\
  map status (logs (after Part0A)) = [JStr "Failed"] /\
  map mpesaReceipt (logs (after Part0A)) = [JStr "ABC123"].
Proof. vm_compute. repeat split. Qed.

(** C9, amended: a record that an initiation ([POST /pay] or
    [POST /api/mpesa/stk]) appends carries no receipt.  An acknowledged
    callback whose identifier no record has appends an orphan that carries
    the value of the payload's first [MpesaReceiptNumber] item (or [null])
    in part_001 and no receipt in the other versions.  An acknowledged
    callback for an identifier found in the Ledger sets the record's
    [mpesaReceipt] to the value of the payload's first
    [MpesaReceiptNumber] item, whatever the result code; when the payload
    has no [CallbackMetadata], as the gateway's failure callbacks have
    none, the record is left without a receipt ([undefined] in the first
    server.js, [null] in the later versions). *)
Theorem receipt_follows_payload parseNumber printString v cfg w reqbody s :
  let r := fst (callback v w reqbody s) in
  let s' := snd (callback v w reqbody s) in
  let found := findIndex (has_id (callback_id reqbody)) (logs s) in
  let cb := stkCallback_of reqbody in
  (forall rq e,
      is_initiation rq = true ->
      logs (step parseNumber printString v cfg s rq) = (logs s ++ [e])%list ->
      mpesaReceipt e = JUndefined) /\
  (code r = 200 -> found = None ->
   exists o receiptItem,
     logs s' = (logs s ++ [o])%list /\
     find_item "MpesaReceiptNumber" (callback_items cb) = Ret receiptItem /\
     mpesaReceipt o = match v with
                      | Part1 => js_or (get_opt receiptItem "Value") JNull
                      | _ => JUndefined
                      end) /\
  (forall i, code r = 200 -> found = Some i ->
   exists e' receiptItem,
     nth_error (logs s') i = Some e' /\
     status e' = (if strict_eq (prop "ResultCode" cb) (JNum (of_Z 0))
                  then JStr "Success" else JStr "Failed") /\
     find_item "MpesaReceiptNumber" (callback_items cb) = Ret receiptItem /\
     mpesaReceipt e' = match v with
                       | ServerA => get_opt receiptItem "Value"
                       | _ => js_or (get_opt receiptItem "Value") JNull
                       end /\
     (prop "CallbackMetadata" cb = JUndefined ->
      mpesaReceipt e' = match v with ServerA => JUndefined | _ => JNull end)).
Proof.
  intros r s' found cb. subst r s' found cb. unfold callback_id.
  split.
  { intros rq e Hi He.
    now destruct (initiation_appends_unreconciled parseNumber printString
                    v cfg s rq e Hi He) as (_ & Hm & _). }
  destruct (callback_cases v reqbody) as [(ri & paid & Hri & H)|(r & Hr & H)];
    rewrite !H; simpl; [|split; intros; contradiction].
  unfold apply_callback. split.
  - intros _ Hn. rewrite Hn.
    eexists; exists ri. split; [reflexivity|]. split; [exact Hri|].
    destruct v; reflexivity.
  - intros i _ Hi. rewrite Hi.
    destruct (findIndex_Some _ _ _ Hi) as (e & He & _).
    exists (reconcile v w (stkCallback_of reqbody) ri paid e), ri.
    split; [now apply update_at_same|]. simpl.
    split; [reflexivity|]. split; [exact Hri|].
    split; [destruct v; reflexivity|].
    intros Hm. unfold callback_items in Hri. rewrite Hm in Hri.
    simpl in Hri. injection Hri as <-.
    destruct v; reflexivity.
Qed.

Lemma receipt_follows_payload_witness :
  exists e',
    nth_error (logs (snd (callback ServerA (demo_world 5000 "x")
                            (cancelled_callback "ws_CO_1") (one_pending ServerA)))) 0
      = Some e' /\
    status e' = JStr "Failed" /\
    mpesaReceipt e' = JUndefined.
Proof.
  destruct (receipt_follows_payload no_parse no_print ServerA demo_cfg
              (demo_world 5000 "x")
              (cancelled_callback "ws_CO_1") (one_pending ServerA))
    as (_ & _ & H).
  destruct (H 0%nat eq_refl eq_refl) as (e' & ri & Hn & Hs & _ & _ & Hm).
  exists e'. split; [exact Hn|]. split; [exact Hs|]. apply Hm. reflexivity.
Defined.

(** ** C4: duplicate identifiers *)

(** C4, as stated, fails: when the gateway returns to a second initiation
    the identifier it returned to the first, the second initiation is
    answered 200 and a second record with that identifier is appended.
    Evaluated on [/pay] of the first server.js and on [/api/mpesa/stk] of
    the second. *)
Lemma duplicate_identifier_appended :
  let reqbody := JObj [("phone", JStr "0712345678"); ("amount", JNum (of_Z 20))] in
  let w := demo_world 1000 "ws_CO_1" in
  let p1 := pay no_parse no_print ServerA demo_cfg w reqbody initial in
  let p2 := pay no_parse no_print ServerA demo_cfg w reqbody (snd p1) in
  let k1 := stk_route ServerB demo_cfg w reqbody initial in
  let k2 := stk_route ServerB demo_cfg w reqbody (snd k1) in
  code (fst p2) = 200 /\
  map checkoutId (logs (snd p2)) = [JStr "ws_CO_1"; JStr "ws_CO_1"] /\
  unique_ids (logs (snd p1)) = true /\
  unique_ids (logs (snd p2)) = false /\
  code (fst k2) = 200 /\
  map checkoutId (logs (snd k2)) = [JStr "ws_CO_1"; JStr "ws_CO_1"] /\
  unique_ids (logs (snd k2)) = false.
Proof. vm_compute. repeat split. Qed.

(** C4, amended: an initiation never fails on a duplicate.  Its answer and
    the records it appends (none, or one Pending record) are the same
    whatever records the Ledger holds, so a record whose identifier is
    already present is appended like any other.  Identifiers stay pairwise
    distinct through a request as long as an initiation does not append an
    identifier that the Ledger already holds; a callback never breaks
    distinctness. *)
Theorem initiation_appends_regardless pn ps v cfg rq s :
  unique_ids (logs s) = true ->
  (is_initiation rq = true ->
   exists r c' added,
     (forall l, handle pn ps v cfg (mkServer l (cache s)) rq
                = (r, mkServer (l ++ added) c')) /\
     (added = [] \/ exists e, added = [e] /\ status e = JStr "Pending")) /\
  ((forall e, is_initiation rq = true ->
              logs (step pn ps v cfg s rq) = (logs s ++ [e])%list ->
              findIndex (has_id (checkoutId e)) (logs s) = None) ->
   unique_ids (logs (step pn ps v cfg s rq)) = true).
Proof.
  intros Hu. split; [apply initiation_shape|].
  intros Hfresh. unfold step in *.
  destruct (is_initiation rq) eqn:Hi.
  - destruct (initiation_shape pn ps v cfg rq (cache s) Hi)
      as (r & c' & added & H & Ha).
    specialize (H (logs s)). destruct s as [l c]; simpl in *.
    rewrite H in *; simpl in *.
    destruct Ha as [->|(e & -> & _)].
    + now rewrite app_nil_r.
    + apply unique_ids_push; [exact Hu|]. now apply Hfresh.
  - destruct rq; try discriminate. simpl. now apply callback_keeps_unique.
Qed.

Lemma initiation_appends_regardless_witness :
  unique_ids
    (logs (step no_parse no_print Part1 demo_cfg (one_pending Part1)
             (ReqPay (demo_world 2000 "ws_CO_2")
                (JObj [("phone", JStr "0712345678"); ("amount", JNum (of_Z 20))]))))
  = true.
Proof.
  apply (initiation_appends_regardless no_parse no_print Part1 demo_cfg
           (ReqPay (demo_world 2000 "ws_CO_2")
              (JObj [("phone", JStr "0712345678"); ("amount", JNum (of_Z 20))]))
           (one_pending Part1)).
  - reflexivity.
  - intros e _ H. vm_compute in H. injection H as <-. reflexivity.
Defined.

(** ** C5: a failed submission *)

Lemma check_amount_rejects pn am r :
  check_amount pn am = inl r -> code r = 400 /\ error_body r = true.
Proof.
  unfold check_amount.
  destruct (_ || _); [intros [= <-]; auto|].
  destruct (_ || _); [intros [= <-]; auto|].
  destruct (num_gtb _ _); [intros [= <-]; auto|discriminate].
Qed.

Lemma token_error_plain v cfg w c e :
  token (getAccessToken v cfg w c) = Throw e -> response e = None.
Proof.
  unfold getAccessToken, credentials_check, exchange_failed.
  destruct (cache_fresh v (now w) c); simpl; [discriminate|].
  destruct v; simpl;
    repeat match goal with
           | |- context [if ?b then _ else _] => destruct b; simpl
           | |- context [match oauth w with _ => _ end] =>
               destruct (oauth w); simpl
           | |- context [match get ?d ?k with _ => _ end] =>
               destruct (get d k); simpl
           end;
    try discriminate; intros [= <-]; reflexivity.
Qed.

(** C5: when the STK push fails (the request errors, times out or is
    answered with a failure status), [/pay] and [/api/mpesa/stk] leave
    [logs] as it was and answer with a status outside 200-299; where the
    version declares the route, the answer carries an [error] text. *)
Theorem failed_submission_leaves_no_trace pn ps v cfg w reqbody s e :
  stk w = StkFail e ->
  axios_rejects e = true ->
  let p := pay pn ps v cfg w reqbody s in
  let k := stk_route v cfg w reqbody s in
  (logs (snd p) = logs s /\ is_error (fst p) = true /\
   (declares_pay v = true -> error_body (fst p) = true)) /\
  (logs (snd k) = logs s /\ is_error (fst k) = true /\
   (declares_stk v = true -> error_body (fst k) = true)).
Proof.
  intros Hs Hr p k. subst p k.
  assert (Hp : is_error (pay_failed v e) = true).
  { unfold axios_rejects in Hr. unfold pay_failed, is_error.
    destruct v; try reflexivity. simpl.
    destruct (response e) as [[c d]|]; [|reflexivity]. simpl.
    destruct (Z.eqb_spec c 0); [reflexivity|exact Hr]. }
  assert (Hp' : forall e', response e' = None -> is_error (pay_failed v e') = true).
  { intros e' He'. unfold pay_failed, is_error. rewrite He'.
    destruct v; reflexivity. }
  assert (Hb : forall e', error_body (pay_failed v e') = true)
    by (intros; destruct v; reflexivity).
  assert (Hsub : forall ph am,
    logs (snd (submit_pay v cfg w ph am s)) = logs s /\
    is_error (fst (submit_pay v cfg w ph am s)) = true /\
    error_body (fst (submit_pay v cfg w ph am s)) = true).
  { intros ph am. unfold submit_pay, stkpush. rewrite Hs.
    destruct (token (getAccessToken v cfg w (cache s))) as [tok|e'] eqn:Ht;
      simpl; repeat split; auto.
    apply Hp'. now apply token_error_plain in Ht. }
  split.
  - unfold pay.
    destruct v; simpl; try (repeat split; discriminate).
    all: destruct (get reqbody "phone") as [ph|e0] eqn:Hg; simpl;
      [| destruct reqbody; try discriminate Hg; injection Hg as <-;
         repeat split; reflexivity].
    all: try (destruct (check_amount pn (prop "amount" reqbody)) as [r|n] eqn:Hc;
              [apply check_amount_rejects in Hc; destruct Hc as [Hc Hc'];
               simpl; unfold is_error; rewrite Hc; repeat split; auto|]).
    all: try (destruct (negb (truthy _)); [repeat split; reflexivity|]).
    all: match goal with
         | |- context [submit_pay _ _ _ ?a ?b _] =>
             destruct (Hsub a b) as (H1 & H2 & H3)
         end; repeat split; auto.
  - unfold stk_route, stkpush. rewrite Hs.
    destruct v; simpl; try (repeat split; discriminate).
    all: destruct (truthy (prop "phone" (js_or reqbody (JObj [])))); simpl;
      [|repeat split; reflexivity].
    all: destruct (token (getAccessToken _ cfg w (cache s))) as [tok|e'];
      simpl; try (repeat split; reflexivity).
    all: destruct (truthy tok); simpl; repeat split; reflexivity.
Qed.

Lemma failed_submission_leaves_no_trace_witness :
  let w := mkWorld 1000 1001 "20240101120000" "20240101120001"
             (OauthOk demo_token)
             (StkFail (mkError "AxiosError" (Some (400, JObj [("errorMessage", JStr "Bad Request")]))
                         "Request failed with status code 400")) in
  let reqbody := JObj [("phone", JStr "0712345678"); ("amount", JNum (of_Z 20))] in
  logs (snd (pay no_parse no_print Part1 demo_cfg w reqbody (one_pending Part1)))
  = logs (one_pending Part1).
Proof.
  apply (failed_submission_leaves_no_trace no_parse no_print Part1 demo_cfg
           (mkWorld 1000 1001 "20240101120000" "20240101120001"
              (OauthOk demo_token)
              (StkFail (mkError "AxiosError"
                          (Some (400, JObj [("errorMessage", JStr "Bad Request")]))
                          "Request failed with status code 400")))
           (JObj [("phone", JStr "0712345678"); ("amount", JNum (of_Z 20))])
           (one_pending Part1) _ eq_refl eq_refl).
Defined.

(** ** C6: the phone normaliser *)

(** C6, as stated, fails: the national and the international form of one
    subscriber are mapped to two different results, and an input in none of
    the accepted shapes is returned stripped instead of being rejected. *)
Lemma no_single_canonical_form :
  normalizePhone (JStr "0712345678") = JStr "0712345678" /\
  normalizePhone (JStr "712345678") = JStr "0712345678" /\
  normalizePhone (JStr "254712345678") = JStr "254712345678" /\
  normalizePhone (JStr "+254 712-345-678") = JStr "254712345678" /\
  normalizePhone (JStr "not a phone") = JStr "notaphone".
Proof. vm_compute. repeat split. Qed.

(** C6, amended: after whitespace, [+] and [-] are stripped, an input of the
    national shape (07 and 8 digits) is mapped to itself, one of the bare
    shape (7 and 8 digits) to the national form of the same subscriber, and
    one of the international shape (2547 and 8 digits) to itself: national
    and bare inputs share one representation, the international input keeps
    its own.  The empty string and a value that is not a string give
    [null]. *)
Theorem normalizePhone_shapes (raw d : string) :
  digits 8 d = true ->
  (strip raw = "07" ++ d -> normalizePhone (JStr raw) = JStr ("07" ++ d)) /\
  (strip raw = "7" ++ d -> normalizePhone (JStr raw) = JStr ("07" ++ d)) /\
  (strip raw = "2547" ++ d -> normalizePhone (JStr raw) = JStr ("2547" ++ d)) /\
  normalizePhone (JStr "") = JNull /\
  (forall x, (forall s, x <> JStr s) -> normalizePhone x = JNull).
Proof.
  intros Hd.
  repeat split.
  - intros H. unfold normalizePhone.
    destruct raw as [|c r]; [discriminate H|]. simpl String.eqb.
    rewrite H. cbn -[digits]. now rewrite Hd.
  - intros H. unfold normalizePhone.
    destruct raw as [|c r]; [discriminate H|]. simpl String.eqb.
    rewrite H. cbn -[digits]. now rewrite Hd.
  - intros H. unfold normalizePhone.
    destruct raw as [|c r]; [discriminate H|]. simpl String.eqb.
    rewrite H. cbn -[digits]. now rewrite Hd.
  - intros x Hx. destruct x; try reflexivity. now destruct (Hx s).
Qed.

Lemma normalizePhone_shapes_witness :
  normalizePhone (JStr "+254 712-345-678") = JStr "254712345678".
Proof.
  apply (normalizePhone_shapes "+254 712-345-678" "12345678" eq_refl).
  reflexivity.
Defined.

(** ** C7: the amount ceiling of part_001 *)

Lemma Qle_bool_false x y : (y < x)%Q -> Qle_bool x y = false.
Proof.
  intros H. destruct (Qle_bool x y) eqn:E; [|reflexivity].
  apply Qle_bool_iff in E. lra.
Qed.

(** C7: in part_001, whose [/pay] takes the amount from the caller and
    bounds it by [MAX_AMOUNT], a request whose amount converts to a number
    above the ceiling is answered 400 with the amount-exceeds error and
    changes nothing (so is an infinite amount); a request whose amount [a]
    satisfies [0 < a <= MAX_AMOUNT] passes the amount checks and goes on to
    the phone check and the submission with that amount. *)
Theorem amount_ceiling pn ps cfg w reqbody s rawPhone a :
  get reqbody "phone" = Ret rawPhone ->
  ToNumber pn (prop "amount" reqbody) = Fin a ->
  let exceeds :=
    status_json 400 (err "Amount exceeds maximum allowed (KES 30)") in
  ((inject_Z MAX_AMOUNT < a)%Q ->
   check_amount pn (prop "amount" reqbody) = inl exceeds /\
   pay pn ps Part1 cfg w reqbody s = (exceeds, s)) /\
  (check_amount pn (JNum PosInf) = inl exceeds) /\
  ((0 < a)%Q -> (a <= inject_Z MAX_AMOUNT)%Q ->
   check_amount pn (prop "amount" reqbody) = inr (Fin a) /\
   pay pn ps Part1 cfg w reqbody s =
     let ph := normalizePhone (JStr (ToString ps (js_or rawPhone (JStr "")))) in
     if negb (truthy ph)
     then (status_json 400 (err "Invalid phone number"), s)
     else submit_pay Part1 cfg w ph (JNum (Fin a)) s).
Proof.
  intros Hg Hn exceeds.
  assert (Hdef : (inject_Z MAX_AMOUNT < a)%Q \/ (0 < a)%Q ->
                 strict_eq (prop "amount" reqbody) JUndefined
                 || strict_eq (prop "amount" reqbody) JNull = false).
  { intros Ha. destruct (prop "amount" reqbody); try reflexivity.
    - discriminate Hn.
    - simpl in Hn. injection Hn as <-. unfold MAX_AMOUNT in Ha.
      destruct Ha as [Ha|Ha]; vm_compute in Ha; discriminate Ha. }
  split; [|split].
  - intros Ha.
    assert (Hc : check_amount pn (prop "amount" reqbody) = inl exceeds).
    { unfold check_amount. rewrite Hdef by auto. rewrite Hn. simpl.
      rewrite Qle_bool_false
        by (apply Qlt_trans with (inject_Z MAX_AMOUNT); [reflexivity|exact Ha]).
      simpl. rewrite Qle_bool_false by exact Ha. reflexivity. }
    split; [exact Hc|]. unfold pay. now rewrite Hg, Hc.
  - reflexivity.
  - intros Hpos Hle.
    assert (Hc : check_amount pn (prop "amount" reqbody) = inr (Fin a)).
    { unfold check_amount. rewrite Hdef by auto. rewrite Hn. simpl.
      rewrite Qle_bool_false by exact Hpos. simpl.
      apply Qle_bool_iff in Hle. now rewrite Hle. }
    split; [exact Hc|]. unfold pay. now rewrite Hg, Hc.
Qed.

Lemma amount_ceiling_witness :
  let reqbody n := JObj [("phone", JStr "0712345678"); ("amount", JNum (of_Z n))] in
  pay no_parse no_print Part1 demo_cfg (demo_world 1000 "ws_CO_1") (reqbody 31) initial
  = (status_json 400 (err "Amount exceeds maximum allowed (KES 30)"), initial) /\
  check_amount no_parse (JNum (of_Z 30)) = inr (of_Z 30).
Proof.
  split.
  - apply (amount_ceiling no_parse no_print demo_cfg (demo_world 1000 "ws_CO_1")
             (JObj [("phone", JStr "0712345678"); ("amount", JNum (of_Z 31))])
             initial (JStr "0712345678") (inject_Z 31) eq_refl eq_refl).
    reflexivity.
  - apply (amount_ceiling no_parse no_print demo_cfg (demo_world 1000 "ws_CO_1")
             (JObj [("phone", JStr "0712345678"); ("amount", JNum (of_Z 30))])
             initial (JStr "0712345678") (inject_Z 30) eq_refl eq_refl).
    + reflexivity.
    + discriminate.
Defined.

(** ** C8: the token cache *)

(** C8, as stated, fails on its last part: in server.js the expiry stored on
    refresh is the instant the answer was received plus one hour.  That is
    the end of a one-hour validity window, not an earlier instant, and it is
    later than the end of the window of 3599 seconds that the answer
    states. *)
Lemma expiry_at_end_of_window :
  let w := demo_world 1000 "ws_CO_1" in
  let a := getAccessToken ServerA demo_cfg w empty_cache in
  exchanges a = 1%nat /\
  token a = Ret (JStr "tok-1") /\
  tokenExpiryTime (cache_after a) = Some (now_after w + one_hour) /\
  option_map (before_window_end (now_after w) one_hour)
    (tokenExpiryTime (cache_after a)) = Some false /\
  stated_validity demo_token = Some 3599000 /\
  option_map (before_window_end (now_after w) 3599000)
    (tokenExpiryTime (cache_after a)) = Some false.
Proof. vm_compute. repeat split. Qed.

(** A token that is not truthy is not reused: the empty string is stored
    but the next call, inside the stored validity, exchanges again. *)
Example empty_token_not_reused :
  let w := mkWorld 1000 1001 "" "" (OauthOk (JObj [("access_token", JStr "")]))
             (StkFail (Error "")) in
  let a1 := getAccessToken ServerA demo_cfg w empty_cache in
  let a2 := getAccessToken ServerA demo_cfg w (cache_after a1) in
  exchanges a1 = 1%nat /\ exchanges a2 = 1%nat.
Proof. vm_compute. split; reflexivity. Qed.

Lemma refreshed v cfg w c tok :
  exchanges (getAccessToken v cfg w c) = 1%nat ->
  token (getAccessToken v cfg w c) = Ret tok ->
  truthy tok = true ->
  cache_fresh v (now w) c = false /\
  credentials_check v cfg = None /\
  cache_after (getAccessToken v cfg w c)
  = mkCache tok (Some (now_after w + token_lifetime v)).
Proof.
  unfold getAccessToken.
  destruct (cache_fresh v (now w) c); [discriminate|].
  destruct (credentials_check v cfg); [discriminate|].
  destruct (oauth w) as [data|e]; simpl.
  - destruct (get data "access_token") as [t|e]; simpl.
    + intros _ [= ->] _. auto.
    + unfold exchange_failed. destruct v; intros _ [= <-]; discriminate.
  - unfold exchange_failed. destruct v; intros _ [= <-]; discriminate.
Qed.

Lemma stale_exchanges_once v cfg w c :
  cache_fresh v (now w) c = false ->
  credentials_check v cfg = None ->
  exchanges (getAccessToken v cfg w c) = 1%nat.
Proof.
  unfold getAccessToken. intros -> ->.
  destruct (oauth w) as [data|e]; [|reflexivity].
  destruct (get data "access_token"); reflexivity.
Qed.

(** C8, amended: after a refresh that returned a non-empty token, a call
    made before the stored expiry returns the very same token, makes no
    credential exchange and leaves the cache as it is; a call made at or
    after the stored expiry makes exactly one exchange.  The stored expiry
    is the instant the answer was received plus a duration fixed in the
    code, whatever validity the gateway states: one hour in both versions
    of server.js and in the second version of part_000, 3,500,000 ms in the
    first version of part_000, one hour less five seconds in part_001.  It
    lies strictly before the end of a stated validity window exactly when
    that window is longer than the fixed duration; for a window of one hour,
    in the first version of part_000 and in part_001 only. *)
Theorem token_reuse_and_expiry v cfg w1 w2 c tok :
  let a1 := getAccessToken v cfg w1 c in
  let a2 := getAccessToken v cfg w2 (cache_after a1) in
  exchanges a1 = 1%nat ->
  token a1 = Ret tok ->
  truthy tok = true ->
  0 <= now_after w1 ->
  tokenExpiryTime (cache_after a1) = Some (now_after w1 + token_lifetime v) /\
  (forall validity,
      before_window_end (now_after w1) validity
        (now_after w1 + token_lifetime v)
      = (token_lifetime v <? validity)) /\
  (token_lifetime v <? one_hour)
  = match v with Part0A | Part1 => true | _ => false end /\
  (now w2 < now_after w1 + token_lifetime v ->
   token a2 = Ret tok /\ exchanges a2 = 0%nat /\ cache_after a2 = cache_after a1) /\
  (now_after w1 + token_lifetime v <= now w2 -> exchanges a2 = 1%nat).
Proof.
  intros a1 a2 He Ht Htok Hpos. subst a1 a2.
  destruct (refreshed v cfg w1 c tok He Ht Htok) as (_ & Hcred & ->).
  assert (Hl : 0 < token_lifetime v) by (destruct v; reflexivity).
  split; [reflexivity|]. split.
  { intros validity. unfold before_window_end.
    destruct (Z.ltb_spec (token_lifetime v) validity);
      [apply Z.ltb_lt | apply Z.ltb_ge]; lia. }
  split; [destruct v; reflexivity|]. split.
  - intros Hlt.
    assert (Hf : cache_fresh v (now w2)
                   (mkCache tok (Some (now_after w1 + token_lifetime v))) = true).
    { unfold cache_fresh; simpl. rewrite Htok.
      assert ((now w2 <? now_after w1 + token_lifetime v) = true) as ->
        by (apply Z.ltb_lt; lia).
      assert ((now_after w1 + token_lifetime v =? 0) = false) as ->
        by (apply Z.eqb_neq; lia).
      destruct v; reflexivity. }
    unfold getAccessToken. rewrite Hf. auto.
  - intros Hge. apply stale_exchanges_once; [|exact Hcred].
    unfold cache_fresh; simpl.
    assert ((now w2 <? now_after w1 + token_lifetime v) = false) as ->
      by (apply Z.ltb_ge; lia).
    rewrite !andb_false_r. destruct v; reflexivity.
Qed.

Lemma token_reuse_and_expiry_witness :
  let a1 := getAccessToken Part1 demo_cfg (demo_world 1000 "x") empty_cache in
  let a2 := getAccessToken Part1 demo_cfg (demo_world 2000000 "x") (cache_after a1) in
  tokenExpiryTime (cache_after a1) = Some (1001 + 3595000) /\
  token a2 = Ret (JStr "tok-1") /\ exchanges a2 = 0%nat.
Proof.
  destruct (token_reuse_and_expiry Part1 demo_cfg (demo_world 1000 "x")
              (demo_world 2000000 "x") empty_cache (JStr "tok-1")
              eq_refl eq_refl eq_refl)
    as (H1 & _ & _ & H2 & _).
  - discriminate.
  - split; [exact H1|]. destruct H2 as (Ha & Hb & _); [reflexivity|]. auto.
Defined.

(** ** C10: orphans and the queries by phone *)

(** C10: the claim holds of what the callback stores and of the queries
    of server.js and part_000, and fails in part_001 at the query
    [un-known].  [normalizePhone] ends in [return cleaned] under the
    comment "fallback: return cleaned if it looks numeric" and checks
    nothing, so the query is normalised to [unknown]: [/status] answers 200
    with the orphan and [/logs] lists it.  The first server.js, which
    filters by the query as given, answers the same query with 404. *)
Lemma normalised_query_returns_orphan :
  let s := deliver_all Part1
             [(demo_world 5000 "x", paid_callback "ZZZ999")] initial in
  let sA := deliver_all ServerA
              [(demo_world 5000 "x", paid_callback "ZZZ999")] initial in
  strict_eq (JStr "un-known") (JStr "unknown") = false /\
  map phone (logs s) = [JStr "unknown"] /\
  map checkoutId (userLogs no_print Part1 (JStr "un-known") (logs s))
    = [JStr "ZZZ999"] /\
  option_map checkoutId (lastLog no_print Part1 (JStr "un-known") (logs s))
    = Some (JStr "ZZZ999") /\
  code (status_by_phone no_print Part1 (JStr "un-known") s) = 200 /\
  map checkoutId (listed no_print Part1 (JStr "un-known") (logs s))
    = [JStr "ZZZ999"] /\
  normalizePhone (JStr "un-known") = JStr "unknown" /\
  map phone (logs sA) = [JStr "unknown"] /\
  code (status_by_phone no_print ServerA (JStr "un-known") sA) = 404 /\
  listed no_print ServerA (JStr "un-known") (logs sA) = [].
Proof. vm_compute. repeat split. Qed.

Section Orphans.
Variable parseNumber : jsval -> num.
Variable printString : jsval -> string.
Variable v : Version.
Variable cfg : Config.

(** A request leaves every record at its index and with its phone. *)
Lemma step_keeps_phone s rq i e :
  nth_error (logs s) i = Some e ->
  exists e', nth_error (logs (step parseNumber printString v cfg s rq)) i
             = Some e' /\ phone e' = phone e.
Proof.
  intros He. unfold step.
  destruct (is_initiation rq) eqn:Hi.
  - destruct (initiation_shape parseNumber printString v cfg rq (cache s) Hi)
      as (r & c' & added & H & _).
    specialize (H (logs s)). destruct s as [l c]; simpl in *. rewrite H; simpl.
    exists e. split; [|reflexivity].
    rewrite nth_error_app1; [exact He|]. apply nth_error_Some. congruence.
  - destruct rq as [| |w b]; try discriminate. simpl.
    destruct (callback_record v w b s i e He) as (e' & Hn & Hp).
    exists e'. split; [exact Hn|].
    destruct Hp as [->|(ri & paid & ->)]; reflexivity.
Qed.

Lemma run_keeps_phone rqs s i e :
  nth_error (logs s) i = Some e ->
  exists e', nth_error (logs (run parseNumber printString v cfg rqs s)) i
             = Some e' /\ phone e' = phone e.
Proof.
  revert s e. induction rqs as [|rq rqs IH]; intros s e He; simpl.
  - exists e. auto.
  - destruct (step_keeps_phone s rq i e He) as (e1 & H1 & P1).
    destruct (IH _ _ H1) as (e2 & H2 & P2).
    exists e2. split; [exact H2|congruence].
Qed.

(** The record that a callback appends has the phone ['unknown']. *)
Lemma callback_appends_unknown w reqbody s :
  List.length (logs (snd (callback v w reqbody s))) = S (List.length (logs s)) ->
  exists o, nth_error (logs (snd (callback v w reqbody s))) (List.length (logs s))
            = Some o /\ phone o = JStr "unknown".
Proof.
  destruct (callback_cases v reqbody) as [(ri & paid & _ & H)|(r & Hc & H)];
    rewrite H; simpl; [|lia].
  unfold apply_callback. destruct (findIndex _ (logs s)).
  - rewrite update_at_length. lia.
  - intros _. eexists. split; [apply nth_error_app_last|reflexivity].
Qed.

End Orphans.

(** * Further properties *)

(** ** Strings of digits *)

Lemma digits_length n s : digits n s = true -> String.length s = n.
Proof.
  revert s; induction n as [|n IH]; intros [|c r]; simpl; try discriminate; auto.
  intros H. apply andb_prop in H. f_equal. now apply IH.
Qed.

Lemma digits_app n m a b :
  digits n a = true -> digits m b = true -> digits (n + m) (a ++ b) = true.
Proof.
  revert a; induction n as [|n IH]; intros [|c r]; simpl; try discriminate; auto.
  intros H Hb. apply andb_prop in H. destruct H as [-> H]. simpl. now apply IH.
Qed.

Lemma digit_not_separator c : is_digit c = true -> is_separator c = false.
Proof.
  destruct c as [[] [] [] [] [] [] [] []]; vm_compute; congruence.
Qed.

Lemma digit_not_stripped c : is_digit c = true -> is_stripped c = false.
Proof.
  destruct c as [[] [] [] [] [] [] [] []]; vm_compute; congruence.
Qed.

Lemma remove_all_digits n s :
  digits n s = true -> remove_all is_separator s = s.
Proof.
  revert s; induction n as [|n IH]; intros [|c r]; simpl; try discriminate; auto.
  intros H. apply andb_prop in H. destruct H as [Hc H].
  rewrite (digit_not_separator c Hc). f_equal. now apply IH.
Qed.

Lemma remove_all_app p a b :
  remove_all p (a ++ b) = remove_all p a ++ remove_all p b.
Proof.
  induction a as [|c r IH]; simpl; [reflexivity|].
  destruct (p c); simpl; now rewrite IH.
Qed.

Lemma substring_prefix a b : substring 0 (String.length a) (a ++ b) = a.
Proof.
  induction a as [|c r IH]; simpl.
  - destruct b; reflexivity.
  - now rewrite IH.
Qed.

Lemma append_assoc (a b c : string) : (a ++ b) ++ c = a ++ (b ++ c).
Proof. induction a as [|x a IH]; simpl; [reflexivity|now rewrite IH]. Qed.

Lemma append_nil_r (a : string) : a ++ "" = a.
Proof. induction a as [|x a IH]; simpl; [reflexivity|now rewrite IH]. Qed.

Lemma all_from_spec (p : N -> bool) (k : nat) (start : N) :
  all_from p k start = true ->
  forall n, (start <= n)%N -> (n < start + N.of_nat k)%N -> p n = true.
Proof.
  revert start. induction k as [|k IH]; intros start H n Hl Hu; [lia|].
  simpl in H. apply andb_prop in H. destruct H as [H0 H1].
  destruct (N.eq_dec n start) as [->|Hne]; [exact H0|].
  apply (IH (N.succ start) H1); lia.
Qed.

Lemma below_all (p : N -> bool) (k : nat) :
  all_from p k 0%N = true -> forall n, (n < N.of_nat k)%N -> p n = true.
Proof.
  intros H n Hn. apply (all_from_spec p k 0%N H n); lia.
Qed.

Lemma pad2_digits n : (n < 100)%N -> digits 2 (padStart 2 "0" (dec n)) = true.
Proof.
  apply (below_all (fun n => digits 2 (padStart 2 "0" (dec n))) 100).
  vm_compute. reflexivity.
Qed.

Lemma pad3_digits n : (n < 1000)%N -> digits 3 (padStart 3 "0" (dec n)) = true.
Proof.
  apply (below_all (fun n => digits 3 (padStart 3 "0" (dec n))) 1000).
  vm_compute. reflexivity.
Qed.

Lemma pad4_digits n :
  (n < 10000)%N -> digits 4 (padStart 4 "0" (dec n)) = true.
Proof.
  intros H.
  apply (below_all (fun n => digits 4 (padStart 4 "0" (dec n))) (100 * 100));
    [vm_compute; reflexivity | lia].
Qed.

Lemma pad4_four_digit_year n :
  (1000 <= n)%N -> (n < 10000)%N -> padStart 4 "0" (dec n) = dec n.
Proof.
  intros Hl Hu.
  assert (H : (String.eqb (padStart 4 "0" (dec n)) (dec n) || (n <? 1000)%N)
              = true).
  { apply (below_all (fun n => String.eqb (padStart 4 "0" (dec n)) (dec n)
                               || (n <? 1000)%N) (100 * 100));
      [vm_compute; reflexivity | lia]. }
  apply orb_prop in H. destruct H as [H|H].
  - now apply String.eqb_eq.
  - apply N.ltb_lt in H. lia.
Qed.

(** ** [getTimestamp] *)

(** X1: [getTimestamp] of server.js and part_000 formats the UTC reading of
    the clock: for a date up to the year 9999 it is exactly fourteen digits,
    the year on four, then month, day, hours, minutes and seconds on two
    each, with the milliseconds dropped.  [getTimestamp] of part_001 formats
    the local reading of the clock in the same layout from the year 1000
    on.  The two agree where the local reading is the UTC reading. *)
Theorem getTimestamp_fourteen_digits (v : Version) (utc local : DateParts) :
  let ok d :=
    (year d < 10000)%N /\ (month0 d < 12)%N /\ (day d <= 31)%N /\
    (hours d < 24)%N /\ (minutes d < 60)%N /\ (seconds d < 60)%N /\
    (millis d < 1000)%N in
  let fmt d :=
    padStart 4 "0" (dec (year d))
    ++ padStart 2 "0" (dec (month0 d + 1))
    ++ padStart 2 "0" (dec (day d))
    ++ padStart 2 "0" (dec (hours d))
    ++ padStart 2 "0" (dec (minutes d))
    ++ padStart 2 "0" (dec (seconds d)) in
  ok utc -> ok local ->
  digits 14 (fmt utc) = true /\
  digits 14 (fmt local) = true /\
  (v <> Part1 -> getTimestamp v utc local = fmt utc) /\
  ((1000 <= year local)%N -> getTimestamp Part1 utc local = fmt local) /\
  (local = utc -> (1000 <= year utc)%N -> getTimestamp v utc local = fmt utc).
Proof.
  intros ok fmt Hu Hl.
  assert (Dfmt : forall d, ok d -> digits 14 (fmt d) = true).
  { intros d (Hy & Hm & Hd & Hh & Hmi & Hs & Hms). subst fmt. cbv beta.
    apply (digits_app 4 10); [exact (pad4_digits (year d) Hy)|].
    apply (digits_app 2 8); [apply pad2_digits; lia|].
    apply (digits_app 2 6); [apply pad2_digits; lia|].
    apply (digits_app 2 4); [apply pad2_digits; lia|].
    apply (digits_app 2 2); apply pad2_digits; lia. }
  assert (Hiso : forall d, ok d ->
            substring 0 14 (remove_all is_separator (toISOString d)) = fmt d).
  { intros d Hd. pose proof (Dfmt d Hd) as Dt.
    destruct Hd as (Hy & Hm & Hd & Hh & Hmi & Hs & Hms).
    pose proof Hy as Hy'. apply N.ltb_lt in Hy'.
    pose proof (pad4_digits (year d) Hy) as Dy.
    pose proof (pad2_digits (month0 d + 1) ltac:(lia)) as Dm.
    pose proof (pad2_digits (day d) ltac:(lia)) as Dd.
    pose proof (pad2_digits (hours d) ltac:(lia)) as Dh.
    pose proof (pad2_digits (minutes d) ltac:(lia)) as Dmi.
    pose proof (pad2_digits (seconds d) ltac:(lia)) as Ds.
    pose proof (pad3_digits (millis d) Hms) as Dms.
    assert (Hr : remove_all is_separator (toISOString d)
                 = fmt d ++ padStart 3 "0" (dec (millis d))).
    { unfold toISOString. rewrite Hy'.
      rewrite !remove_all_app.
      rewrite (remove_all_digits 4 _ Dy), (remove_all_digits 2 _ Dm),
        (remove_all_digits 2 _ Dd), (remove_all_digits 2 _ Dh),
        (remove_all_digits 2 _ Dmi), (remove_all_digits 2 _ Ds),
        (remove_all_digits 3 _ Dms).
      subst fmt. simpl remove_all. cbn [append].
      rewrite append_nil_r, !append_assoc. reflexivity. }
    rewrite Hr. rewrite <- (digits_length 14 (fmt d) Dt) at 1.
    apply substring_prefix. }
  assert (Hloc : forall d, ok d -> (1000 <= year d)%N ->
            getTimestamp Part1 utc d = fmt d).
  { intros d (Hy & _) Hk. unfold getTimestamp. subst fmt. cbv beta.
    now rewrite (pad4_four_digit_year (year d) Hk Hy). }
  split; [exact (Dfmt utc Hu)|]. split; [exact (Dfmt local Hl)|].
  split; [|split].
  - intros Hv. destruct v; try exact (Hiso utc Hu). contradiction.
  - intros Hk. exact (Hloc local Hl Hk).
  - intros -> Hk. destruct v; try exact (Hiso utc Hu). exact (Hloc utc Hu Hk).
Qed.

Lemma getTimestamp_fourteen_digits_witness :
  getTimestamp ServerA (mkDate 2024 11 31 22 30 45 7) (mkDate 2025 0 1 1 30 45 7)
  = "20241231223045" /\
  getTimestamp Part1 (mkDate 2024 11 31 22 30 45 7) (mkDate 2025 0 1 1 30 45 7)
  = "20250101013045".
Proof.
  split.
  - destruct (getTimestamp_fourteen_digits ServerA
                (mkDate 2024 11 31 22 30 45 7) (mkDate 2025 0 1 1 30 45 7))
      as (_ & _ & H & _); try (simpl; lia).
    rewrite H by discriminate. reflexivity.
  - destruct (getTimestamp_fourteen_digits Part1
                (mkDate 2024 11 31 22 30 45 7) (mkDate 2025 0 1 1 30 45 7))
      as (_ & _ & _ & H & _); try (simpl; lia).
    rewrite H by (simpl; lia). reflexivity.
Defined.

(** ** Start-up checks *)

(** X2: the start-up check of part_000 reports nothing exactly when the
    consumer key, the consumer secret, the short code and the passkey are
    set; the entry for the till number is never reported without the entry
    for the short code, so that an unset till number alone goes unreported;
    and when nothing is reported [getAccessToken] does not stop for want of
    credentials. *)
Theorem missing_reports (e : Env) :
  (missing e = [] <->
   env_set (env_KEY e) = true /\ env_set (env_SECRET e) = true /\
   env_set (env_SHORTCODE e) = true /\ env_set (env_PASSKEY e) = true) /\
  (In "TILL_NUMBER or BUSINESS_SHORTCODE" (missing e) ->
   In "BUSINESS_SHORTCODE" (missing e)) /\
  (env_set (env_SHORTCODE e) = true ->
   missing e = missing (mkEnv (env_KEY e) (env_SECRET e) (env_SHORTCODE e)
                          (env_PASSKEY e) None)) /\
  (missing e = [] -> credentials_check Part0A (config_of e) = None).
Proof.
  unfold missing, credentials_check, config_of; simpl.
  destruct (env_set (env_KEY e)), (env_set (env_SECRET e)),
    (env_set (env_SHORTCODE e)), (env_set (env_PASSKEY e)),
    (env_set (env_TILL e)); simpl;
    repeat split; intros; try discriminate; try reflexivity;
    repeat match goal with
           | H : _ /\ _ |- _ => destruct H
           | H : _ \/ _ |- _ => destruct H
           | H : False |- _ => destruct H
           end;
    try discriminate; auto 10.
Qed.

Lemma missing_reports_witness :
  credentials_check Part0A
    (config_of (mkEnv (Some "key") (Some "secret") (Some "174379")
                  (Some "passkey") None)) = None.
Proof.
  apply (missing_reports (mkEnv (Some "key") (Some "secret") (Some "174379")
                            (Some "passkey") None)).
  reflexivity.
Defined.

(** ** [normalizePhone] once more *)

Lemma strip_digits n r : digits n r = true -> strip r = r.
Proof.
  revert r; induction n as [|n IH]; intros [|c r]; simpl; try discriminate; auto.
  intros H. apply andb_prop in H. destruct H as [Hc H].
  rewrite (digit_not_stripped c Hc). f_equal. now apply IH.
Qed.

Lemma strip_idempotent s : strip (strip s) = strip s.
Proof.
  induction s as [|c r IH]; simpl; [reflexivity|].
  destruct (is_stripped c) eqn:Hc; simpl; [exact IH|].
  now rewrite Hc, IH.
Qed.

Lemma normalizePhone_stripped (x : jsval) (t : string) :
  normalizePhone x = JStr t -> strip t = t.
Proof.
  destruct x as [| | | |s| |]; simpl; try discriminate.
  destruct (String.eqb s ""); [discriminate|].
  destruct (re_national (strip s)); [intros [= <-]; apply strip_idempotent|].
  destruct (re_bare (strip s)) eqn:Hb.
  - intros [= <-]. destruct (strip s) as [|c r] eqn:Hc; [discriminate|].
    unfold re_bare in Hb.
    destruct (Ascii.eqb_spec c "7"); [subst c|].
    2:{ destruct c as [[] [] [] [] [] [] [] []]; try discriminate Hb;
        contradiction. }
    simpl. now rewrite (strip_digits 8 r Hb).
  - destruct (re_international (strip s)); intros [= <-];
      apply strip_idempotent.
Qed.

(** X3: what [normalizePhone] returns holds no whitespace, [+] or [-], and
    normalising it again changes nothing unless it is the empty string
    (which an input of nothing but stripped characters gives, and which
    normalises to [null]). *)
Theorem normalizePhone_idempotent (x : jsval) (t : string) :
  normalizePhone x = JStr t ->
  strip t = t /\
  (t <> "" -> normalizePhone (JStr t) = JStr t) /\
  (t = "" -> normalizePhone (JStr t) = JNull).
Proof.
  intros H.
  assert (Hfix : strip t = t ->
                 (t <> "" -> normalizePhone (JStr t) = JStr t) ->
                 strip t = t /\
                 (t <> "" -> normalizePhone (JStr t) = JStr t) /\
                 (t = "" -> normalizePhone (JStr t) = JNull)).
  { intros H1 H2. split; [exact H1|]. split; [exact H2|].
    intros ->. reflexivity. }
  destruct x as [| | | |s| |]; simpl in H; try discriminate.
  destruct (String.eqb s "") eqn:Hs; [discriminate|].
  assert (Hre : forall u, strip u = u -> u <> "" ->
                normalizePhone (JStr u) =
                if re_national u then JStr u
                else if re_bare u then JStr ("0" ++ u) else JStr u).
  { intros u Hu Hne. unfold normalizePhone.
    destruct (String.eqb_spec u ""); [contradiction|].
    rewrite Hu. destruct (re_international u); reflexivity. }
  destruct (re_national (strip s)) eqn:Hn.
  - injection H as <-. apply Hfix; [apply strip_idempotent|].
    intros Hne. rewrite Hre by (auto using strip_idempotent). now rewrite Hn.
  - destruct (re_bare (strip s)) eqn:Hb.
    + injection H as <-.
      destruct (strip s) as [|c r] eqn:Hc; [discriminate|].
      unfold re_bare in Hb.
      destruct (Ascii.eqb_spec c "7"); [subst c|].
      2:{ destruct c as [[] [] [] [] [] [] [] []]; try discriminate Hb;
          contradiction. }
      assert (Hst : strip ("0" ++ String "7" r) = "0" ++ String "7" r).
      { simpl. now rewrite (strip_digits 8 r Hb). }
      apply Hfix; [exact Hst|].
      intros _. rewrite Hre by (auto; discriminate).
      change (re_national (String "0" (String "7" r))) with (digits 8 r).
      now rewrite Hb.
    + assert (Ht : t = strip s).
      { destruct (re_international (strip s)); congruence. }
      subst t. apply Hfix; [apply strip_idempotent|].
      intros Hne. rewrite Hre by (auto using strip_idempotent).
      now rewrite Hn, Hb.
Qed.

Lemma normalizePhone_idempotent_witness :
  normalizePhone (JStr "0712345678") = JStr "0712345678".
Proof.
  apply (normalizePhone_idempotent (JStr "+712 345-678") "0712345678" eq_refl).
  discriminate.
Defined.

(** ** [getAccessToken]: failures *)

(** X4: a call of [getAccessToken] makes at most one credential exchange,
    and it leaves the cache as it was unless the exchange succeeded, in
    which case it returns and stores the very token of the answer.  When the
    exchange fails, the only token a caller can get is the unexpired cached
    one, got without an exchange: part_000 answers [null] and the other
    versions throw.  Where the version checks the credentials (part_000,
    part_001) and one is not set, a stale cache leads to no exchange at
    all. *)
Theorem cache_written_only_on_success v cfg w c :
  let a := getAccessToken v cfg w c in
  (exchanges a <= 1)%nat /\
  (cache_after a = c \/
   exists data tok,
     oauth w = OauthOk data /\ get data "access_token" = Ret tok /\
     exchanges a = 1%nat /\ token a = Ret tok /\
     cache_after a = mkCache tok (Some (now_after w + token_lifetime v))) /\
  (forall e, oauth w = OauthFail e ->
     cache_after a = c /\
     (exchanges a = 1%nat -> token a = exchange_failed v) /\
     (forall tok, token a = Ret tok -> truthy tok = true ->
                  tok = accessTokenCache c /\ exchanges a = 0%nat)) /\
  (cache_fresh v (now w) c = false ->
   env_set (DARAJA_CONSUMER_KEY cfg) = false \/
   env_set (DARAJA_CONSUMER_SECRET cfg) = false ->
   v = Part0A \/ v = Part1 ->
   exchanges a = 0%nat /\ cache_after a = c /\
   forall tok, token a = Ret tok -> tok = JNull).
Proof.
  intros a. subst a.
  unfold getAccessToken, credentials_check, exchange_failed.
  destruct (cache_fresh v (now w) c) eqn:Hf;
    destruct (env_set (DARAJA_CONSUMER_KEY cfg)) eqn:Hk;
    destruct (env_set (DARAJA_CONSUMER_SECRET cfg)) eqn:Hs;
    destruct v; simpl;
    try (destruct (oauth w) as [data|e0] eqn:Ho; simpl;
         [destruct (get data "access_token") as [t0|e1] eqn:Hg; simpl|]).
  all: split; [lia|].
  all: split; [first [left; reflexivity | right; eauto 10]|].
  all: split;
    [intros e He;
     first [discriminate He
           | split; [reflexivity|];
             split; [intros H1; first [discriminate H1 | reflexivity]|];
             intros tok Hr Ht;
             first [discriminate Hr
                   | injection Hr as <-;
                     first [discriminate Ht | auto]]]
    |].
  all: intros H0 Hu Hv; try discriminate H0;
    destruct Hu as [Hu|Hu]; try discriminate Hu;
    destruct Hv as [Hv|Hv]; try discriminate Hv.
  all: repeat split; auto; intros tok Hr;
    first [discriminate Hr | now injection Hr as <-].
Qed.

Lemma cache_written_only_on_success_witness :
  let w := mkWorld 1000 1001 "" "" (OauthFail (Error "timeout of 10000ms exceeded"))
             (StkFail (Error "")) in
  let c := mkCache (JStr "old") (Some 500) in
  cache_after (getAccessToken Part0A demo_cfg w c) = c.
Proof.
  destruct (cache_written_only_on_success Part0A demo_cfg
              (mkWorld 1000 1001 "" "" (OauthFail (Error "timeout of 10000ms exceeded"))
                 (StkFail (Error "")))
              (mkCache (JStr "old") (Some 500)))
    as (_ & _ & H & _).
  destruct (H _ eq_refl) as (Hc & _). exact Hc.
Defined.

(** ** Initiation: validation and what is stored *)

(** [/api/mpesa/stk], case by case: either nothing is appended and the
    answer is not 200, or the gateway accepted, the answer is
    [{checkoutId, data}] and one Pending record for the fixed amount is
    appended. *)
Lemma stk_route_cases v cfg w reqbody c :
  let b := js_or reqbody (JObj []) in
  exists r c' added,
    (forall l, stk_route v cfg w reqbody (mkServer l c)
               = (r, mkServer (l ++ added) c')) /\
    ((added = [] /\ code r <> 200) \/
     exists data cid,
       stk w = StkOk data /\ truthy (prop "phone" b) = true /\
       cid = match v with
             | ServerB => get_opt data "CheckoutRequestID"
             | _ => js_or (get_opt data "CheckoutRequestID") JNull
             end /\
       r = json (JObj [("checkoutId", cid); ("data", data)]) /\
       added = [pending (prop "phone" b) (JNum (of_Z FIXED_AMOUNT))
                  (js_or (prop "event" b) JNull)
                  (js_or (prop "template" b) JNull)
                  match v with Part0A => stamp_log w | _ => stamp w end
                  cid data]).
Proof.
  intros b. subst b.
  unfold stk_route, with_cache, push, with_logs, stkpush; simpl.
  assert (Hnil : forall l : list LogEntry, l = (l ++ [])%list)
    by (intros; now rewrite app_nil_r).
  destruct v; simpl;
    try (do 3 eexists; split; [intros l; rewrite (Hnil l) at 1; reflexivity
                              | left; split; [reflexivity|discriminate]]).
  all: destruct (truthy (prop "phone" (js_or reqbody (JObj [])))) eqn:Hph; simpl;
    try (do 3 eexists; split; [intros l; rewrite (Hnil l) at 1; reflexivity
                              | left; split; [reflexivity|discriminate]]).
  all: destruct (token (getAccessToken _ cfg w c)) as [tok|e]; simpl;
    try (do 3 eexists; split; [intros l; rewrite (Hnil l) at 1; reflexivity
                              | left; split; [reflexivity|discriminate]]).
  all: try (destruct (truthy tok); simpl;
    try (do 3 eexists; split; [intros l; rewrite (Hnil l) at 1; reflexivity
                              | left; split; [reflexivity|discriminate]])).
  all: destruct (stk w) as [data|e]; simpl;
    try (do 3 eexists; split; [intros l; rewrite (Hnil l) at 1; reflexivity
                              | left; split; [reflexivity|discriminate]]).
  all: try (destruct (get data "CheckoutRequestID") as [cid|e] eqn:Hg; simpl;
    [apply get_Ret in Hg; subst cid
    | do 3 eexists; split; [intros l; rewrite (Hnil l) at 1; reflexivity
                           | left; split; [reflexivity|discriminate]]]).
  all: do 3 eexists; (split; [intros l; reflexivity|]); right;
    do 2 eexists; repeat split; reflexivity.
Qed.

(** X5: [/api/mpesa/stk] answers a request without a phone with 400 and
    changes nothing, not even the token cache.  A record that it appends is
    always Pending and for the fixed amount of 20, whatever amount the
    request names, carries the request's phone, event and template ([null]
    where absent), and its identifier is the [checkoutId] of the answer; and
    it appends a record whenever it answers 200. *)
Theorem stk_stores_fixed_amount v cfg w reqbody s :
  let b := js_or reqbody (JObj []) in
  let r := fst (stk_route v cfg w reqbody s) in
  let s' := snd (stk_route v cfg w reqbody s) in
  (declares_stk v = true -> truthy (prop "phone" b) = false ->
   stk_route v cfg w reqbody s = (status_json 400 (err "phone is required"), s)) /\
  (forall e, logs s' = (logs s ++ [e])%list ->
     amount e = JNum (of_Z 20) /\ status e = JStr "Pending" /\
     phone e = prop "phone" b /\ truthy (phone e) = true /\
     event e = js_or (prop "event" b) JNull /\
     template e = js_or (prop "template" b) JNull /\
     code r = 200 /\ prop "checkoutId" (body r) = checkoutId e) /\
  (code r = 200 -> exists e, logs s' = (logs s ++ [e])%list).
Proof.
  intros b r s'. subst r s'. split.
  - subst b. intros Hd Hp. unfold stk_route.
    destruct v; try discriminate Hd; simpl; rewrite Hp; reflexivity.
  - destruct (stk_route_cases v cfg w reqbody (cache s))
      as (r & c' & added & H & Ha).
    specialize (H (logs s)). destruct s as [l c]; simpl in *. rewrite H. simpl.
    destruct Ha as [[-> Hc]|(data & cid & Hs & Hp & Hcid & -> & ->)].
    + split; [|contradiction].
      intros e He. rewrite app_nil_r in He.
      apply (f_equal (@List.length _)) in He. rewrite length_app in He.
      simpl in He. lia.
    + split; [|intros _; eexists; reflexivity].
      intros e He. apply app_inv_head in He. injection He as <-.
      simpl. repeat split; auto.
Qed.

Lemma stk_stores_fixed_amount_witness :
  stk_route Part0A demo_cfg (demo_world 1000 "ws_CO_1")
    (JObj [("amount", JNum (of_Z 5))]) (one_pending Part0A)
  = (status_json 400 (err "phone is required"), one_pending Part0A).
Proof.
  apply (stk_stores_fixed_amount Part0A demo_cfg (demo_world 1000 "ws_CO_1")
           (JObj [("amount", JNum (of_Z 5))]) (one_pending Part0A));
    reflexivity.
Defined.

Lemma strict_eq_undefined x : strict_eq x JUndefined = true <-> x = JUndefined.
Proof. destruct x; simpl; split; congruence. Qed.

Lemma strict_eq_null x : strict_eq x JNull = true <-> x = JNull.
Proof. destruct x; simpl; split; congruence. Qed.

Section Validation.
Variable parseNumber : jsval -> num.
Variable printString : jsval -> string.

(** X6: [/pay] of part_001 rejects, with 400 and before it touches the
    token cache or the Ledger, a request without an amount ("Amount is
    required"), one whose amount converts to NaN, to zero or below ("Invalid
    amount"), and, the amount being accepted, one whose phone is empty once
    whitespace, [+] and [-] are stripped ("Invalid phone number"). *)
Theorem pay_rejects_before_effects cfg w reqbody s rawPhone :
  get reqbody "phone" = Ret rawPhone ->
  let am := prop "amount" reqbody in
  let answer := pay parseNumber printString Part1 cfg w reqbody s in
  (am = JUndefined \/ am = JNull ->
   answer = (status_json 400 (err "Amount is required"), s)) /\
  (am <> JUndefined -> am <> JNull ->
   ToNumber parseNumber am = NaN \/ ToNumber parseNumber am = NegInf \/
   (exists a, ToNumber parseNumber am = Fin a /\ (a <= 0)%Q) ->
   answer = (status_json 400 (err "Invalid amount"), s)) /\
  (forall n, check_amount parseNumber am = inr n ->
   strip (ToString printString (js_or rawPhone (JStr ""))) = "" ->
   answer = (status_json 400 (err "Invalid phone number"), s)).
Proof.
  intros Hg am answer. subst am answer. unfold pay. rewrite Hg.
  split; [|split].
  - intros [H|H]; unfold check_amount; rewrite H; reflexivity.
  - intros H1 H2 Hn. unfold check_amount.
    assert (strict_eq (prop "amount" reqbody) JUndefined = false) as ->.
    { destruct (strict_eq _ JUndefined) eqn:E; [|reflexivity].
      apply strict_eq_undefined in E. contradiction. }
    assert (strict_eq (prop "amount" reqbody) JNull = false) as ->.
    { destruct (strict_eq _ JNull) eqn:E; [|reflexivity].
      apply strict_eq_null in E. contradiction. }
    simpl. destruct Hn as [->|[->|(a & -> & Ha)]]; try reflexivity.
    simpl. apply Qle_bool_iff in Ha.
    change (inject_Z 0) with 0%Q. now rewrite Ha.
  - intros n Hc Hs. rewrite Hc.
    assert (Hf : truthy (normalizePhone
                   (JStr (ToString printString (js_or rawPhone (JStr "")))))
                 = false).
    { unfold normalizePhone.
      destruct (String.eqb _ ""); [reflexivity|]. rewrite Hs. reflexivity. }
    now rewrite Hf.
Qed.

End Validation.

Lemma pay_rejects_before_effects_witness :
  pay no_parse no_print Part1 demo_cfg (demo_world 1000 "ws_CO_1")
    (JObj [("phone", JStr "+ -"); ("amount", JNum (of_Z 20))]) initial
  = (status_json 400 (err "Invalid phone number"), initial).
Proof.
  apply (pay_rejects_before_effects no_parse no_print demo_cfg
           (demo_world 1000 "ws_CO_1")
           (JObj [("phone", JStr "+ -"); ("amount", JNum (of_Z 20))])
           initial (JStr "+ -") eq_refl) with (n := of_Z 20);
    reflexivity.
Defined.

(** ** Status by identifier *)

Lemma find_first_at {A : Type} (p : A -> bool) l i :
  findIndex p l = Some i -> find_first p l = nth_error l i.
Proof.
  revert i; induction l as [|a l IH]; intros i; simpl; [discriminate|].
  destruct (p a); [intros [= <-]; reflexivity|].
  destruct (findIndex p l) as [k|]; [|discriminate].
  intros [= <-]. simpl. now apply IH.
Qed.

Lemma find_first_none {A : Type} (p : A -> bool) l :
  findIndex p l = None <-> find_first p l = None.
Proof.
  induction l as [|a l IH]; simpl; [tauto|].
  destruct (p a); [split; discriminate|].
  destruct (findIndex p l); split; intros H; try discriminate;
    try (now apply IH). apply IH in H. discriminate.
Qed.

Lemma js_or_null_twice x : js_or (js_or x JNull) JNull = js_or x JNull.
Proof. unfold js_or. destruct (truthy x) eqn:E; [now rewrite E|reflexivity]. Qed.

Lemma truthy_time z : z <> 0 -> truthy (JNum (of_Z z)) = true.
Proof.
  intros Hz. simpl. destruct (Qeq_bool (inject_Z z) (inject_Z 0)) eqn:E;
    [|reflexivity].
  apply Qeq_bool_iff in E. unfold Qeq in E. simpl in E. lia.
Qed.

Lemma truthy_str s : s <> "" -> truthy (JStr s) = true.
Proof. intros H. simpl. now destruct (String.eqb_spec s ""). Qed.

(** X7: [/api/mpesa/status] answers 400 to a query without identifier;
    otherwise 404 exactly when no record has the identifier and 200 exactly
    when one has, and then it shows the oldest record with it, with
    [Pending] for a state that is empty or absent.  It is declared by the
    second server.js and by part_000. *)
Theorem status_by_id_answers v q s :
  v = ServerB \/ v = Part0A ->
  let r := status_by_id v q s in
  let found := findIndex (has_id q) (logs s) in
  (truthy q = false -> r = status_json 400 (err "checkoutId is required")) /\
  (truthy q = true -> found = None ->
   r = status_json 404 (err "Transaction not found")) /\
  (truthy q = true -> forall i, found = Some i ->
   exists e, nth_error (logs s) i = Some e /\
     r = json (projection e (js_or (status e) (JStr "Pending"))
                 (js_or (mpesaReceipt e) JNull) (js_or (resultDesc e) JNull)
                 (js_or (expiry e) JNull))).
Proof.
  intros Hv r found. subst r found. unfold status_by_id, findByCheckoutId.
  split; [|split].
  - intros ->. destruct Hv as [-> | ->]; reflexivity.
  - intros -> Hn. apply find_first_none in Hn. rewrite Hn.
    destruct Hv as [-> | ->]; reflexivity.
  - intros -> i Hi. rewrite (find_first_at _ _ _ Hi).
    destruct (findIndex_Some _ _ _ Hi) as (e & He & _).
    exists e. split; [exact He|]. rewrite He.
    destruct Hv as [-> | ->]; reflexivity.
Qed.

Lemma status_by_id_answers_witness :
  status_by_id Part0A (JStr "nope") (one_pending Part0A)
  = status_json 404 (err "Transaction not found").
Proof.
  apply (status_by_id_answers Part0A (JStr "nope") (one_pending Part0A));
    [right; reflexivity | reflexivity | reflexivity].
Defined.

(** X8: in the second server.js and in part_000, when [/api/mpesa/stk]
    answers 200 with a non-empty string as [checkoutId] and no record had
    that identifier before, [/api/mpesa/status] for that [checkoutId] shows
    the new record: state [Pending], the request's phone, the amount 20, and
    neither receipt, description nor expiry. *)
Theorem initiated_then_pending v cfg w reqbody s cid :
  v = ServerB \/ v = Part0A ->
  let r := fst (stk_route v cfg w reqbody s) in
  let s' := snd (stk_route v cfg w reqbody s) in
  code r = 200 ->
  prop "checkoutId" (body r) = JStr cid -> cid <> "" ->
  findIndex (has_id (JStr cid)) (logs s) = None ->
  exists e,
    logs s' = (logs s ++ [e])%list /\
    phone e = prop "phone" (js_or reqbody (JObj [])) /\
    amount e = JNum (of_Z 20) /\
    status_by_id v (JStr cid) s'
    = json (projection e (JStr "Pending") JNull JNull JNull).
Proof.
  intros Hv r s'. subst r s'. intros Hc Hid Hne Hfresh.
  destruct (stk_route_cases v cfg w reqbody (cache s))
    as (r & c' & added & H & Ha).
  specialize (H (logs s)). destruct s as [l c]; simpl in *.
  rewrite H in *. simpl in *.
  destruct Ha as [[-> Hno]|(data & k & Hs & Hp & Hk & -> & ->)];
    [contradiction|].
  simpl in Hid. eexists. split; [reflexivity|].
  split; [reflexivity|]. split; [reflexivity|].
  unfold status_by_id, findByCheckoutId. rewrite (truthy_str cid Hne). simpl.
  rewrite find_first_app_new;
    [| exact Hfresh
     | unfold has_id; simpl; rewrite Hid; simpl; apply String.eqb_refl].
  rewrite Hid. destruct Hv as [-> | ->]; reflexivity.
Qed.

Lemma initiated_then_pending_witness :
  exists e,
    logs (snd (stk_route ServerB demo_cfg (demo_world 1000 "ws_CO_9")
                 (JObj [("phone", JStr "254712345678")]) initial)) = [e] /\
    amount e = JNum (of_Z 20).
Proof.
  destruct (initiated_then_pending ServerB demo_cfg (demo_world 1000 "ws_CO_9")
              (JObj [("phone", JStr "254712345678")]) initial "ws_CO_9")
    as (e & He & _ & Ha & _);
    [left; reflexivity | reflexivity | reflexivity | discriminate
    | reflexivity |].
  exists e. split; [exact He | exact Ha].
Defined.

Lemma find_first_update_at {A : Type} (p : A -> bool) (f : A -> A) l i x :
  (forall y, p (f y) = p y) ->
  findIndex p l = Some i -> nth_error l i = Some x ->
  find_first p (update_at i f l) = Some (f x).
Proof.
  intros Hp Hi Hx.
  rewrite (find_first_at p (update_at i f l) i)
    by (now rewrite findIndex_update_at).
  now apply update_at_same.
Qed.

(** X9: in the second server.js and in part_000, after an acknowledged
    callback whose identifier is a non-empty string that a record has,
    [/api/mpesa/status] for that identifier shows the reconciled record:
    state [Success] or [Failed] by the result code, the receipt and the
    description of the payload ([null] where the payload has none), and on
    success an expiry twelve hours after the delivery; phone, amount, event
    and template are those of the initiation. *)
Theorem reconciled_then_visible v w reqbody s cid i :
  v = ServerB \/ v = Part0A ->
  callback_id reqbody = JStr cid -> cid <> "" ->
  code (fst (callback v w reqbody s)) = 200 ->
  findIndex (has_id (JStr cid)) (logs s) = Some i ->
  let cb := stkCallback_of reqbody in
  let s' := snd (callback v w reqbody s) in
  exists e receiptItem,
    nth_error (logs s) i = Some e /\
    find_item "MpesaReceiptNumber" (callback_items cb) = Ret receiptItem /\
    status_by_id v (JStr cid) s'
    = json (projection e (outcome cb)
              (js_or (get_opt receiptItem "Value") JNull)
              (js_or (prop "ResultDesc" cb) JNull)
              (js_or (if succeeded cb
                      then JNum (of_Z (now w + 1000 * 60 * 60 * 12))
                      else expiry e) JNull)) /\
    (succeeded cb = true -> 0 <= now w ->
     prop "expiry" (body (status_by_id v (JStr cid) s'))
     = JNum (of_Z (now w + 43200000))).
Proof.
  intros Hv Hid Hne Hc Hi cb s'. subst cb s'.
  unfold callback_id in Hid.
  destruct (callback_cases v reqbody) as [(ri & paid & Hri & H)|(r & Hr & H)];
    rewrite !H in *; simpl in *; [|contradiction].
  destruct (findIndex_Some _ _ _ Hi) as (e & He & _).
  exists e, ri. split; [exact He|]. split; [exact Hri|].
  assert (Hst : status_by_id v (JStr cid)
                  (with_logs s (apply_callback v w (stkCallback_of reqbody)
                                  ri paid (logs s)))
                = json (projection e (outcome (stkCallback_of reqbody))
                          (js_or (get_opt ri "Value") JNull)
                          (js_or (prop "ResultDesc" (stkCallback_of reqbody)) JNull)
                          (js_or (if succeeded (stkCallback_of reqbody)
                                  then JNum (of_Z (now w + 1000 * 60 * 60 * 12))
                                  else expiry e) JNull))).
  { unfold status_by_id, findByCheckoutId, apply_callback.
    rewrite (truthy_str cid Hne). simpl. rewrite Hid, Hi.
    rewrite (find_first_update_at _ _ _ i e) by (auto; reflexivity).
    unfold projection, reconcile, receipt_of, outcome; simpl.
    destruct Hv as [-> | ->]; rewrite !js_or_null_twice;
      destruct (succeeded (stkCallback_of reqbody)); reflexivity. }
  split; [exact Hst|].
  intros Hs Hpos. rewrite Hst, Hs. simpl.
  unfold js_or. rewrite truthy_time by lia. reflexivity.
Qed.

Lemma reconciled_then_visible_witness :
  prop "expiry"
    (body (status_by_id Part0A (JStr "ws_CO_1")
             (snd (callback Part0A (demo_world 5000 "x")
                     (paid_callback "ws_CO_1") (one_pending Part0A)))))
  = JNum (of_Z 43205000).
Proof.
  destruct (reconciled_then_visible Part0A (demo_world 5000 "x")
              (paid_callback "ws_CO_1") (one_pending Part0A) "ws_CO_1" 0)
    as (e & ri & _ & _ & _ & H);
    [right; reflexivity | reflexivity | discriminate | reflexivity
    | reflexivity |].
  apply H; [reflexivity | discriminate].
Defined.

(** ** Status by phone *)

Lemma filter_none {A : Type} (p : A -> bool) l :
  forallb (fun x => negb (p x)) l = true -> filter p l = [].
Proof.
  induction l as [|a l IH]; simpl; [reflexivity|].
  destruct (p a); simpl; [discriminate|exact IH].
Qed.

Section ByPhone.
Variable parseNumber : jsval -> num.
Variable printString : jsval -> string.

Lemma lastLog_latest v q l1 e l2 :
  has_phone (query_phone printString v q) e = true ->
  forallb (fun x => negb (has_phone (query_phone printString v q) x)) l2 = true ->
  lastLog printString v q (l1 ++ e :: l2) = Some e.
Proof.
  intros He Hl. unfold lastLog, userLogs.
  rewrite filter_app. simpl. rewrite He, (filter_none _ _ Hl).
  rewrite length_app. simpl.
  replace (List.length (filter _ l1) + 1 - 1)%nat
    with (List.length (filter (has_phone (query_phone printString v q)) l1))
    by lia.
  apply nth_error_app_last.
Qed.

Lemma lastLog_nothing v q l :
  forallb (fun x => negb (has_phone (query_phone printString v q) x)) l = true ->
  lastLog printString v q l = None.
Proof.
  intros Hl. unfold lastLog, userLogs. now rewrite (filter_none _ _ Hl).
Qed.

Lemma status_by_phone_found v q s l1 e l2 :
  v <> Part0B -> truthy q = true ->
  truthy (query_phone printString v q) = true ->
  logs s = (l1 ++ e :: l2)%list ->
  has_phone (query_phone printString v q) e = true ->
  forallb (fun x => negb (has_phone (query_phone printString v q) x)) l2 = true ->
  status_by_phone printString v q s = json (entry_json e).
Proof.
  intros Hv Hq Hk Hl He Ho. unfold status_by_phone.
  rewrite Hq, Hl, (lastLog_latest v q l1 e l2 He Ho), Hk.
  destruct v; try reflexivity; contradiction.
Qed.

(** X10: [/status] answers with the record appended last among those whose
    phone is [===] the phone it filters by (the query itself, or its normal
    form in part_001), and with 404 when there is none; a query without
    phone gets 400, and so does in part_001 a query whose normal form is
    empty. *)
Theorem status_by_phone_latest v q s :
  v <> Part0B ->
  let key := query_phone printString v q in
  let other := fun x => negb (has_phone key x) in
  (truthy q = false ->
   status_by_phone printString v q s = status_json 400 (err "Phone is required")) /\
  (truthy q = true -> truthy key = false ->
   status_by_phone printString v q s
   = status_json 400 (err "Invalid phone format")) /\
  (truthy q = true -> truthy key = true ->
   (forall l1 e l2,
       logs s = (l1 ++ e :: l2)%list -> has_phone key e = true ->
       forallb other l2 = true ->
       status_by_phone printString v q s = json (entry_json e)) /\
   (forallb other (logs s) = true ->
    code (status_by_phone printString v q s) = 404)).
Proof.
  intros Hv key other. subst key other. split; [|split].
  - intros Hq. unfold status_by_phone. rewrite Hq.
    destruct v; try reflexivity. contradiction.
  - intros Hq Hk. unfold status_by_phone. rewrite Hq, Hk.
    destruct v; try contradiction; try reflexivity;
      unfold query_phone in Hk; congruence.
  - intros Hq Hk. split.
    + intros l1 e l2 Hl He Ho.
      now apply (status_by_phone_found v q s l1 e l2).
    + intros Ho. unfold status_by_phone.
      rewrite Hq, (lastLog_nothing v q _ Ho), Hk.
      destruct v; try reflexivity; contradiction.
Qed.

(** X11: when [/pay] has stored a record, [/status] for a phone that the
    version takes for the same (the very phone of the request in server.js;
    any phone with the same normal form in part_001, so the bare and the
    national form of one subscriber) answers with that record, which is
    Pending and carries the stored phone. *)
Theorem paid_then_found v cfg w reqbody s rawPhone q :
  get reqbody "phone" = Ret rawPhone ->
  let s' := snd (pay parseNumber printString v cfg w reqbody s) in
  List.length (logs s') = S (List.length (logs s)) ->
  truthy q = true ->
  strict_eq (stored_phone printString v rawPhone) (query_phone printString v q)
  = true ->
  truthy (query_phone printString v q) = true ->
  exists e,
    logs s' = (logs s ++ [e])%list /\
    phone e = stored_phone printString v rawPhone /\
    status e = JStr "Pending" /\
    status_by_phone printString v q s' = json (entry_json e).
Proof.
  intros Hg s'. subst s'. intros Hlen Hq Heq Hk.
  assert (Hsub : forall ph am,
    List.length (logs (snd (submit_pay v cfg w ph am s)))
      = S (List.length (logs s)) ->
    exists e, logs (snd (submit_pay v cfg w ph am s)) = (logs s ++ [e])%list /\
              phone e = ph /\ status e = JStr "Pending").
  { intros ph am Hl.
    destruct (submit_pay_shape v cfg w ph am (cache s))
      as (r & c' & added & H & Ha).
    specialize (H (logs s)). destruct s as [l c]; simpl in *.
    rewrite H in *. simpl in *.
    destruct Ha as [->|(data & cid & _ & _ & ->)].
    - rewrite app_nil_r in Hl. lia.
    - eexists. split; [reflexivity|]. split; reflexivity. }
  assert (Hpush : exists e,
    logs (snd (pay parseNumber printString v cfg w reqbody s))
      = (logs s ++ [e])%list /\
    phone e = stored_phone printString v rawPhone /\ status e = JStr "Pending").
  { unfold pay in *. rewrite Hg in *.
    destruct v; simpl in *; try lia; try (now apply Hsub).
    destruct (check_amount parseNumber (prop "amount" reqbody)); simpl in *;
      try lia.
    destruct (negb (truthy _)); simpl in *; try lia. now apply Hsub. }
  destruct Hpush as (e & Hl & Hp & Hs).
  exists e. split; [exact Hl|]. split; [exact Hp|]. split; [exact Hs|].
  assert (Hv : v <> Part0B).
  { intros ->. unfold pay in Hlen. simpl in Hlen. lia. }
  apply (status_by_phone_found v q _ (logs s) e []); auto.
  unfold has_phone. now rewrite Hp.
Qed.

End ByPhone.

Lemma status_by_phone_latest_witness :
  code (status_by_phone no_print Part1 (JStr "0799999999") (one_pending Part1))
  = 404.
Proof.
  destruct (status_by_phone_latest no_print Part1 (JStr "0799999999")
              (one_pending Part1)) as (_ & _ & H); [discriminate|].
  destruct (H eq_refl eq_refl) as (_ & H2). apply H2. reflexivity.
Defined.

Lemma paid_then_found_witness :
  exists e,
    phone e = JStr "0712345678" /\
    status_by_phone no_print Part1 (JStr "0712345678")
      (snd (pay no_parse no_print Part1 demo_cfg (demo_world 1000 "ws_CO_1")
              (JObj [("phone", JStr "712 345 678"); ("amount", JNum (of_Z 20))])
              initial))
    = json (entry_json e).
Proof.
  destruct (paid_then_found no_parse no_print Part1 demo_cfg
              (demo_world 1000 "ws_CO_1")
              (JObj [("phone", JStr "712 345 678"); ("amount", JNum (of_Z 20))])
              initial (JStr "712 345 678") (JStr "0712345678"))
    as (e & _ & Hp & _ & Hs); try reflexivity.
  exists e. split; [exact Hp | exact Hs].
Defined.

(** ** The Ledger over a run of requests *)

Lemma same_creation_refl e : same_creation e e.
Proof. unfold same_creation. repeat split. Qed.

Lemma same_creation_trans a b c :
  same_creation a b -> same_creation b c -> same_creation a c.
Proof.
  unfold same_creation. intros (H1 & H2 & H3 & H4 & H5 & H6 & H7)
    (K1 & K2 & K3 & K4 & K5 & K6 & K7).
  repeat split; congruence.
Qed.

Section AppendOnly.
Variable parseNumber : jsval -> num.
Variable printString : jsval -> string.
Variable v : Version.
Variable cfg : Config.

Lemma step_grows s rq :
  let s' := step parseNumber printString v cfg s rq in
  (List.length (logs s) <= List.length (logs s') <= S (List.length (logs s)))%nat /\
  forall i e, nth_error (logs s) i = Some e ->
    exists e', nth_error (logs s') i = Some e' /\ same_creation e e'.
Proof.
  intros s'. subst s'. unfold step.
  destruct (is_initiation rq) eqn:Hi.
  - destruct (initiation_shape parseNumber printString v cfg rq (cache s) Hi)
      as (r & c' & added & H & Ha).
    specialize (H (logs s)). destruct s as [l c]; simpl in *. rewrite H; simpl.
    split.
    + rewrite length_app. destruct Ha as [->|(e & -> & _)]; simpl; lia.
    + intros i e He. exists e. split; [|apply same_creation_refl].
      rewrite nth_error_app1; [exact He|]. apply nth_error_Some. congruence.
  - destruct rq as [| |w b]; try discriminate. simpl. split.
    + destruct (callback_cases v b) as [(ri & paid & _ & H)|(r & Hc & H)];
        rewrite H; simpl; [|lia].
      unfold apply_callback. destruct (findIndex _ (logs s)).
      * rewrite update_at_length. lia.
      * rewrite length_app. simpl. lia.
    + intros i e He.
      destruct (callback_record v w b s i e He) as (e' & Hn & Hp).
      exists e'. split; [exact Hn|].
      destruct Hp as [->|(ri & paid & ->)]; unfold same_creation;
        repeat split.
Qed.

Lemma run_keeps_creation rqs s i e :
  nth_error (logs s) i = Some e ->
  exists e',
    nth_error (logs (run parseNumber printString v cfg rqs s)) i = Some e' /\
    same_creation e e'.
Proof.
  revert s e. induction rqs as [|rq rqs IH]; intros s e He; simpl.
  - exists e. auto using same_creation_refl.
  - destruct (step_grows s rq) as (_ & Hk).
    destruct (Hk i e He) as (e1 & H1 & C1).
    destruct (IH _ _ H1) as (e2 & H2 & C2).
    exists e2. split; [exact H2|]. eapply same_creation_trans; eauto.
Qed.

(** X12: the Ledger is append-only.  Over any sequence of initiations and
    callbacks the number of records never decreases and grows by at most
    one per request, and a record stays at its index with the phone,
    amount, event, template, timestamp, identifier and details it was
    created with. *)
Theorem ledger_append_only rqs s :
  let s' := run parseNumber printString v cfg rqs s in
  (List.length (logs s) <= List.length (logs s')
   <= List.length (logs s) + List.length rqs)%nat /\
  forall i e, nth_error (logs s) i = Some e ->
    exists e', nth_error (logs s') i = Some e' /\ same_creation e e'.
Proof.
  revert s. induction rqs as [|rq rqs IH]; intros s; simpl.
  - split; [lia|]. intros i e He. exists e. auto using same_creation_refl.
  - destruct (step_grows s rq) as (Hl & Hk).
    destruct (IH (step parseNumber printString v cfg s rq)) as (Hl' & Hk').
    split; [lia|].
    intros i e He. destruct (Hk i e He) as (e1 & H1 & C1).
    destruct (Hk' i e1 H1) as (e2 & H2 & C2).
    exists e2. split; [exact H2|]. eapply same_creation_trans; eauto.
Qed.

End AppendOnly.

Lemma ledger_append_only_witness :
  exists e',
    nth_error
      (logs (run no_parse no_print Part0A demo_cfg
               [ReqCallback (demo_world 5000 "x") (paid_callback "ws_CO_1");
                ReqCallback (demo_world 6000 "x") (cancelled_callback "ws_CO_1")]
               (one_pending Part0A))) 0 = Some e' /\
    phone e' = JStr "0712345678".
Proof.
  destruct (ledger_append_only no_parse no_print Part0A demo_cfg
              [ReqCallback (demo_world 5000 "x") (paid_callback "ws_CO_1");
               ReqCallback (demo_world 6000 "x") (cancelled_callback "ws_CO_1")]
              (one_pending Part0A)) as (_ & H).
  destruct (H 0%nat _ eq_refl) as (e' & Hn & Hp & _).
  exists e'. split; [exact Hn | exact Hp].
Defined.

(** ** Callbacks: effects and acknowledgement *)

(** X13: a callback delivery never touches the token cache and changes the
    number of records by at most one: it appends a record exactly when it
    is acknowledged and no record has the identifier of the payload, and
    otherwise keeps the number of records. *)
Theorem callback_effects v w reqbody s :
  let r := fst (callback v w reqbody s) in
  let s' := snd (callback v w reqbody s) in
  let found := findIndex (has_id (callback_id reqbody)) (logs s) in
  cache s' = cache s /\
  (code r = 200 \/ s' = s) /\
  (code r = 200 -> r = json ack) /\
  (code r = 200 -> found = None ->
   List.length (logs s') = S (List.length (logs s))) /\
  (code r <> 200 \/ found <> None ->
   List.length (logs s') = List.length (logs s)).
Proof.
  intros r s' found. subst r s' found. unfold callback_id.
  destruct (callback_cases v reqbody) as [(ri & paid & _ & H)|(r & Hc & H)];
    rewrite !H; simpl.
  - split; [reflexivity|]. split; [now left|]. split; [reflexivity|].
    unfold apply_callback. split.
    + intros _ ->. rewrite length_app. simpl. lia.
    + intros [Hn|Hn]; [contradiction|].
      destruct (findIndex _ (logs s)); [|contradiction].
      apply update_at_length.
  - split; [reflexivity|]. split; [now right|]. split; [contradiction|].
    split; [contradiction|reflexivity].
Qed.

Lemma callback_effects_witness :
  List.length (logs (snd (callback ServerA (demo_world 5000 "x")
                            (paid_callback "ZZZ999") (one_pending ServerA))))
  = 2%nat.
Proof.
  destruct (callback_effects ServerA (demo_world 5000 "x")
              (paid_callback "ZZZ999") (one_pending ServerA))
    as (_ & _ & _ & H & _).
  apply H; reflexivity.
Defined.

(** X14: what decides the answer to a callback.  A body that is a value
    without [Body.stkCallback], or with an empty one, gets 400 and changes
    nothing; a body that is [undefined] or [null] gets 400 in part_000,
    which reads it with [?.], and 500 in the other versions; a payload that
    is present and has no metadata items is always acknowledged with
    [{ResultCode: 0, ResultDesc: 'Received'}]. *)
Theorem callback_answers v w reqbody s :
  v <> Part0B ->
  let cb := stkCallback_of reqbody in
  let nullish := strict_eq reqbody JUndefined || strict_eq reqbody JNull in
  let invalid :=
    status_json 400
      (err match v with Part1 => "Invalid callback payload" | _ => "Invalid data" end) in
  (nullish = true ->
   callback v w reqbody s
   = (match v with
      | Part0A => invalid
      | Part1 => status_json 500 (err "Callback processing failed")
      | _ => uncaught
      end, s)) /\
  (nullish = false -> truthy cb = false ->
   callback v w reqbody s = (invalid, s)) /\
  (truthy cb = true ->
   truthy (get_opt (prop "CallbackMetadata" cb) "Item") = false ->
   fst (callback v w reqbody s) = json ack).
Proof.
  intros Hv cb nullish invalid. subst cb nullish invalid.
  unfold callback, callback_body, stkCallback_of. split; [|split].
  - intros Hn. destruct reqbody; try discriminate Hn;
      destruct v; try contradiction; simpl; destruct s; reflexivity.
  - intros Hn Hc.
    destruct reqbody; try discriminate Hn;
      destruct v; try contradiction; simpl in *; try rewrite Hc; simpl;
      destruct s; reflexivity.
  - intros Hc Hi.
    assert (Hb : get reqbody "Body" = Ret (get_opt reqbody "Body")).
    { destruct reqbody; try reflexivity; simpl in Hc; discriminate Hc. }
    destruct v; try contradiction; rewrite ?Hb; cbn [bind]; rewrite Hc;
      cbn [negb]; unfold callback_items, js_or; rewrite Hi; reflexivity.
Qed.

Lemma callback_answers_witness :
  fst (callback Part1 (demo_world 5000 "x") (cancelled_callback "ws_CO_1")
         (one_pending Part1)) = json ack.
Proof.
  apply (callback_answers Part1 (demo_world 5000 "x")
           (cancelled_callback "ws_CO_1") (one_pending Part1));
    [discriminate | reflexivity | reflexivity].
Defined.

(** ** What [/pay] stores *)

(** The submission of [/pay], case by case: a failure answered through the
    [catch] and nothing appended, or the gateway's acceptance and one
    Pending record. *)
Lemma submit_pay_cases v cfg w ph am c :
  exists r c' added,
    (forall l, submit_pay v cfg w ph am (mkServer l c)
               = (r, mkServer (l ++ added) c')) /\
    ((added = [] /\ exists e, r = pay_failed v e) \/
     exists data cid,
       stk w = StkOk data /\ get data "CheckoutRequestID" = Ret cid /\
       r = match v with
           | Part1 => json (JObj [("message", JStr "STK push initiated");
                                  ("checkoutId", cid); ("raw", data)])
           | _ => json data
           end /\
       added = [pending ph am JUndefined JUndefined (stamp w) cid data]).
Proof.
  unfold submit_pay, with_cache, push, with_logs, stkpush; simpl.
  destruct (token (getAccessToken v cfg w c)) as [tok|e]; simpl.
  2:{ do 3 eexists. split; [intros l; rewrite app_nil_r; reflexivity|].
      left. eauto. }
  destruct (stk w) as [data|e]; simpl.
  2:{ do 3 eexists. split; [intros l; rewrite app_nil_r; reflexivity|].
      left. eauto. }
  destruct (get data "CheckoutRequestID") as [cid|e] eqn:Hc; simpl.
  2:{ do 3 eexists. split; [intros l; rewrite app_nil_r; reflexivity|].
      left. eauto. }
  do 3 eexists. split; [intros l; reflexivity|].
  right. exists data, cid. auto.
Qed.

Section Stored.
Variable parseNumber : jsval -> num.
Variable printString : jsval -> string.

(** X15: [/pay] of server.js checks nothing: it answers 200 or 500 and
    never 400, and the record it appends on 200 carries the request's phone
    and amount exactly as given, be they absent; its answer is the
    gateway's response, which is also the record's [details] and holds the
    record's identifier. *)
Theorem pay_stores_request_as_given v cfg w reqbody s :
  v = ServerA \/ v = ServerB ->
  let r := fst (pay parseNumber printString v cfg w reqbody s) in
  let s' := snd (pay parseNumber printString v cfg w reqbody s) in
  (code r = 200 \/ code r = 500) /\
  (code r = 500 -> logs s' = logs s) /\
  (code r = 200 ->
   exists e,
     logs s' = (logs s ++ [e])%list /\
     phone e = prop "phone" reqbody /\ amount e = prop "amount" reqbody /\
     status e = JStr "Pending" /\
     body r = details e /\
     checkoutId e = prop "CheckoutRequestID" (details e)).
Proof.
  intros Hv r s'. subst r s'.
  assert (Hp : forall e, code (pay_failed v e) = 500)
    by (intros; destruct Hv as [-> | ->]; reflexivity).
  unfold pay.
  destruct (get reqbody "phone") as [ph|e0] eqn:Hg.
  - apply get_Ret in Hg.
    assert (Hph : ph = prop "phone" reqbody).
    { subst ph. destruct reqbody; try reflexivity. }
    destruct (submit_pay_cases v cfg w ph (prop "amount" reqbody) (cache s))
      as (r & c' & added & H & Ha).
    specialize (H (logs s)). destruct s as [l c]; simpl in *.
    destruct Hv as [-> | ->]; rewrite H; simpl;
      (destruct Ha as [[-> (e & ->)]|(data & cid & Hs & Hc & -> & ->)];
       [ split; [right; reflexivity|]; split;
         [intros _; apply app_nil_r | discriminate]
       | split; [left; reflexivity|]; split; [discriminate|];
         intros _; eexists; split; [reflexivity|];
         apply get_Ret in Hc; subst cid; simpl;
         repeat split; auto; destruct data; reflexivity ]).
  - destruct Hv as [-> | ->]; simpl;
      (split; [right; reflexivity|]; split; [reflexivity|discriminate]).
Qed.

(** What [/pay] of part_001 appends. *)
Lemma pay_part1_stores cfg w reqbody s e :
  let s' := snd (pay parseNumber printString Part1 cfg w reqbody s) in
  logs s' = (logs s ++ [e])%list ->
  status e = JStr "Pending" /\
  (exists t, phone e = JStr t /\ t <> "" /\ strip t = t) /\
  (exists a, amount e = JNum (Fin a) /\ (0 < a)%Q /\ (a <= inject_Z MAX_AMOUNT)%Q).
Proof.
  intros s'. subst s'. intros Hl.
  assert (Hno : logs s <> (logs s ++ [e])%list).
  { intros Hx. apply (f_equal (@List.length _)) in Hx.
    rewrite length_app in Hx. simpl in Hx. lia. }
  unfold pay in Hl.
  destruct (get reqbody "phone") as [rawPhone|e0]; [|now simpl in Hl].
  destruct (check_amount parseNumber (prop "amount" reqbody)) as [r|n] eqn:Hc;
    [now simpl in Hl|].
  remember (normalizePhone
              (JStr (ToString printString (js_or rawPhone (JStr ""))))) as ph
    eqn:Hph.
  symmetry in Hph.
  destruct (truthy ph) eqn:Ht; simpl in Hl; [|contradiction].
  destruct (submit_pay_cases Part1 cfg w ph (JNum n) (cache s))
    as (r & c' & added & H & Ha).
  specialize (H (logs s)). destruct s as [l c]; simpl in *.
  rewrite H in Hl. simpl in Hl.
  destruct Ha as [[-> _]|(data & cid & _ & _ & _ & ->)].
  - rewrite app_nil_r in Hl. contradiction.
  - apply app_inv_head in Hl. injection Hl as <-. simpl.
    split; [reflexivity|]. split.
    + destruct ph as [| | | |t| |]; try discriminate Ht;
        try (unfold normalizePhone in Hph;
             repeat match type of Hph with
                    | (if ?b then _ else _) = _ => destruct b
                    end; discriminate Hph).
      exists t. split; [reflexivity|]. split.
      * intros ->. discriminate Ht.
      * exact (normalizePhone_stripped
                 (JStr (ToString printString (js_or rawPhone (JStr ""))))
                 t Hph).
    + unfold check_amount in Hc.
      destruct (_ || _); [discriminate|].
      destruct (isNaN (ToNumber parseNumber (prop "amount" reqbody))
                || num_leb (ToNumber parseNumber (prop "amount" reqbody)) (of_Z 0))
        eqn:Hlow; [discriminate|].
      destruct (num_gtb (ToNumber parseNumber (prop "amount" reqbody))
                  (of_Z MAX_AMOUNT)) eqn:Hhigh; [discriminate|].
      injection Hc as <-.
      destruct (ToNumber parseNumber (prop "amount" reqbody)) as [| |a|];
        try discriminate.
      exists a. split; [reflexivity|]. simpl in Hlow, Hhigh.
      split.
      * destruct (Qlt_le_dec 0 a) as [Hpos|Hle]; [exact Hpos|].
        apply Qle_bool_iff in Hle. change (inject_Z 0) with 0%Q in Hlow.
        congruence.
      * apply negb_false_iff in Hhigh. now apply Qle_bool_iff.
Qed.

End Stored.

Lemma update_at_In {A : Type} i (f : A -> A) l y :
  In y (update_at i f l) -> In y l \/ exists x, In x l /\ y = f x.
Proof.
  revert i; induction l as [|a l IH]; intros [|i]; simpl; try tauto.
  - intros [<-|H]; [right; exists a; auto | left; auto].
  - intros [<-|H]; [left; auto|].
    destruct (IH i H) as [H1|(x & Hx & ->)]; [left; auto|].
    right. exists x. auto.
Qed.

Lemma findIndex_app_old {A : Type} (p : A -> bool) l l' i :
  findIndex p l = Some i -> findIndex p (l ++ l') = Some i.
Proof.
  revert i; induction l as [|a l IH]; intros i; simpl; [discriminate|].
  destruct (p a); [auto|].
  destruct (findIndex p l) as [k|]; [|discriminate].
  intros [= <-]. now rewrite (IH k eq_refl).
Qed.

Section Reachable.
Variable parseNumber : jsval -> num.
Variable printString : jsval -> string.
Variable cfg : Config.

Lemma part1_step_within_ceiling s rq :
  (forall e, In e (logs s) -> within_ceiling e) ->
  forall e, In e (logs (step parseNumber printString Part1 cfg s rq)) ->
            within_ceiling e.
Proof.
  intros Hs e. unfold step, handle. destruct rq as [w b|w b|w b].
  - destruct (pay_shape parseNumber printString Part1 cfg w b (cache s))
      as (r & c' & added & H & Ha).
    pose proof (pay_part1_stores parseNumber printString cfg w b s) as Hst.
    specialize (H (logs s)). destruct s as [l c]; simpl in *.
    rewrite H in *. simpl in *.
    intros Hin. apply in_app_or in Hin. destruct Hin as [Hin|Hin]; [auto|].
    destruct Ha as [->|(x & -> & _)]; [destruct Hin|].
    destruct Hin as [<-|[]].
    destruct (Hst x eq_refl) as (_ & _ & Ha). right. exact Ha.
  - apply Hs.
  - destruct (callback_cases Part1 b) as [(ri & paid & _ & H)|(r & Hc & H)];
      rewrite H; simpl; [|apply Hs].
    unfold apply_callback. destruct (findIndex _ (logs s)).
    + intros Hin. apply update_at_In in Hin.
      destruct Hin as [Hin|(x & Hx & ->)]; [auto|].
      destruct (Hs x Hx) as [Hu|Hb]; [left|right]; exact Hu || exact Hb.
    + intros Hin. apply in_app_or in Hin.
      destruct Hin as [Hin|[<-|[]]]; [auto|]. left. reflexivity.
Qed.

(** X16: the ceiling holds for everything that part_001 stores.  A record
    that [/pay] appends is Pending, carries a phone that is a non-empty
    string without whitespace, [+] or [-], and an amount that is a number
    above 0 and at most 30; and in every state reached from the empty
    Ledger each record is an orphan (phone ['unknown']) or has such an
    amount. *)
Theorem part1_ledger_within_ceiling rqs s :
  (forall e, In e (logs s) -> within_ceiling e) ->
  (forall e, In e (logs (run parseNumber printString Part1 cfg rqs s)) ->
             within_ceiling e) /\
  (forall w reqbody e,
      logs (snd (pay parseNumber printString Part1 cfg w reqbody s))
      = (logs s ++ [e])%list ->
      status e = JStr "Pending" /\
      (exists t, phone e = JStr t /\ t <> "" /\ strip t = t) /\
      (exists a, amount e = JNum (Fin a) /\ (0 < a)%Q /\
                 (a <= inject_Z MAX_AMOUNT)%Q)).
Proof.
  intros Hs. split.
  - revert s Hs. induction rqs as [|rq rqs IH]; intros s Hs; simpl; [exact Hs|].
    apply IH. now apply part1_step_within_ceiling.
  - intros w reqbody e. apply pay_part1_stores.
Qed.

End Reachable.

Lemma part1_ledger_within_ceiling_witness :
  within_ceiling
    (pending (JStr "0712345678") (JNum (of_Z 30)) JUndefined JUndefined
       "20240101120000" (JStr "ws_CO_1")
       (JObj [("CheckoutRequestID", JStr "ws_CO_1"); ("ResponseCode", JStr "0")])).
Proof.
  apply (part1_ledger_within_ceiling no_parse no_print demo_cfg
           [ReqPay (demo_world 1000 "ws_CO_1")
              (JObj [("phone", JStr "0712345678"); ("amount", JNum (of_Z 30))]);
            ReqCallback (demo_world 5000 "x") (paid_callback "ZZZ999")]
           initial).
  - simpl. intros e [].
  - left. reflexivity.
Defined.

Lemma pay_stores_request_as_given_witness :
  exists e,
    logs (snd (pay no_parse no_print ServerA demo_cfg (demo_world 1000 "ws_CO_1")
                 (JObj []) initial)) = [e] /\
    phone e = JUndefined /\ amount e = JUndefined.
Proof.
  destruct (pay_stores_request_as_given no_parse no_print ServerA demo_cfg
              (demo_world 1000 "ws_CO_1") (JObj []) initial)
    as (_ & _ & H); [left; reflexivity|].
  destruct (H eq_refl) as (e & Hl & Hp & Ha & _).
  exists e. split; [exact Hl|]. split; [exact Hp | exact Ha].
Defined.

(** ** Lookup by identifier over a run *)

Section Lookup.
Variable parseNumber : jsval -> num.
Variable printString : jsval -> string.
Variable v : Version.
Variable cfg : Config.

Lemma step_keeps_first s rq cid i :
  findIndex (has_id cid) (logs s) = Some i ->
  findIndex (has_id cid) (logs (step parseNumber printString v cfg s rq))
  = Some i.
Proof.
  intros Hi. unfold step. destruct (is_initiation rq) eqn:Hini.
  - destruct (initiation_shape parseNumber printString v cfg rq (cache s) Hini)
      as (r & c' & added & H & _).
    specialize (H (logs s)). destruct s as [l c]; simpl in *. rewrite H; simpl.
    now apply findIndex_app_old.
  - destruct rq as [| |w b]; try discriminate. simpl.
    destruct (callback_cases v b) as [(ri & paid & _ & H)|(r & Hc & H)];
      rewrite H; simpl; [|exact Hi].
    unfold apply_callback. destruct (findIndex (has_id (prop _ _)) (logs s)).
    + rewrite findIndex_update_at by (intros; apply reconcile_keeps_id).
      exact Hi.
    + now apply findIndex_app_old.
Qed.

(** X17: the record that an identifier resolves to never changes.  Once a
    record is the first with an identifier it stays the first through every
    sequence of initiations and callbacks, so the lookup of
    [/api/mpesa/status] and of [/callback] keeps finding it, with the fields
    it was created with; a record appended later under the same identifier
    is never the one found. *)
Theorem lookup_stable rqs s cid i :
  findIndex (has_id cid) (logs s) = Some i ->
  let s' := run parseNumber printString v cfg rqs s in
  findIndex (has_id cid) (logs s') = Some i /\
  exists e e',
    nth_error (logs s) i = Some e /\
    findByCheckoutId cid (logs s') = Some e' /\
    same_creation e e'.
Proof.
  intros Hi s'. subst s'.
  assert (Hrun : findIndex (has_id cid)
                   (logs (run parseNumber printString v cfg rqs s)) = Some i).
  { revert s Hi. induction rqs as [|rq rqs IH]; intros s Hi; simpl; [exact Hi|].
    apply IH. now apply step_keeps_first. }
  split; [exact Hrun|].
  destruct (findIndex_Some _ _ _ Hi) as (e & He & _).
  destruct (run_keeps_creation parseNumber printString v cfg rqs s i e He)
    as (e' & He' & Hc).
  exists e, e'. split; [exact He|]. split; [|exact Hc].
  unfold findByCheckoutId. now rewrite (find_first_at _ _ _ Hrun).
Qed.

End Lookup.

Lemma lookup_stable_witness :
  findIndex (has_id (JStr "ws_CO_1"))
    (logs (run no_parse no_print Part1 demo_cfg
             [ReqPay (demo_world 2000 "ws_CO_1")
                (JObj [("phone", JStr "0799999999"); ("amount", JNum (of_Z 10))])]
             (one_pending Part1)))
  = Some 0%nat.
Proof.
  apply (lookup_stable no_parse no_print Part1 demo_cfg
           [ReqPay (demo_world 2000 "ws_CO_1")
              (JObj [("phone", JStr "0799999999"); ("amount", JNum (of_Z 10))])]
           (one_pending Part1) (JStr "ws_CO_1") 0).
  reflexivity.
Defined.

(** ** Orphans and the queries by phone *)

(** X18: a record appended by a callback carries the phone ['unknown'] in
    every later state, and [/status] and [/logs] return for a phone only
    records whose phone is [===] the phone they filter by, which is the
    query itself in server.js and part_000 and the normalised query in
    part_001.  So for every query whose filter phone is not ['unknown'] no
    record with the phone ['unknown'], and hence no orphan, is among the
    records returned. *)
Theorem orphans_hidden_from_other_phones pn ps v cfg rqs i :
  orphan_at pn ps v cfg rqs i ->
  let final := logs (run pn ps v cfg rqs initial) in
  exists e,
    nth_error final i = Some e /\
    phone e = JStr "unknown" /\
    forall q,
      query_phone ps v q <> JStr "unknown" ->
      (forall x, In x (userLogs ps v q final) -> phone x <> JStr "unknown") /\
      ~ In e (userLogs ps v q final) /\
      lastLog ps v q final <> Some e /\
      (truthy q = true -> ~ In e (listed ps v q final)).
Proof.
  intros (before & w & b & rest & -> & Hi & Hlen) final. subst final.
  unfold run. rewrite fold_left_app. simpl.
  fold (run pn ps v cfg before initial) in *.
  set (s0 := run pn ps v cfg before initial) in *.
  unfold step at 2. unfold step in Hlen. simpl in *.
  rewrite <- Hi in Hlen.
  destruct (callback_appends_unknown v w b s0 Hlen) as (o & Ho & Hp).
  rewrite Hi in Ho.
  destruct (run_keeps_phone pn ps v cfg rest _ i o Ho) as (e & He & Hpe).
  exists e. split; [exact He|]. split; [congruence|].
  intros q Hq.
  assert (Hall : forall l x, In x (userLogs ps v q l) -> phone x <> JStr "unknown").
  { intros l x Hx Hu. unfold userLogs in Hx. apply filter_In in Hx.
    destruct Hx as [_ Hx]. unfold has_phone in Hx. rewrite Hu in Hx.
    apply strict_eq_str in Hx. contradiction. }
  assert (Hnot : forall l, ~ In e (userLogs ps v q l)).
  { intros l Hin. apply (Hall l e Hin). congruence. }
  split; [apply Hall|]. split; [apply Hnot|]. split.
  - unfold lastLog. intros Hl. apply nth_error_In in Hl. now apply Hnot in Hl.
  - intros Ht. unfold listed. rewrite Ht. apply Hnot.
Qed.

Lemma orphans_hidden_from_other_phones_witness :
  let rqs := [ReqCallback (demo_world 5000 "x") (paid_callback "ZZZ999")] in
  let final := logs (run no_parse no_print Part1 demo_cfg rqs initial) in
  exists e,
    nth_error final 0 = Some e /\
    ~ In e (userLogs no_print Part1 (JStr "0712345678") final).
Proof.
  destruct (orphans_hidden_from_other_phones no_parse no_print Part1 demo_cfg
              [ReqCallback (demo_world 5000 "x") (paid_callback "ZZZ999")] 0)
    as (e & He & _ & Hq).
  - exists [], (demo_world 5000 "x"), (paid_callback "ZZZ999"), [].
    repeat split.
  - exists e. split; [exact He|].
    destruct (Hq (JStr "0712345678")) as (_ & Hn & _);
      [vm_compute; discriminate | exact Hn].
Defined.
